(** * Personal reading list API: article store and ingestion pipeline

    A shallow embedding of [models/article.go] (the article store),
    [handlers/article.go] (the article endpoints) and
    [services/article_processor.go] (the background ingestion run),
    followed by the properties established about them.

    Go strings are byte sequences and are modelled by [string]; a nil
    slice and an empty slice are both the empty list; a Go [error] is
    modelled by its message, [None] standing for [nil]. *)

From Stdlib Require Import List String Ascii Bool Arith Lia.
Import ListNotations.
Open Scope string_scope.

(* ================================================================== *)
(** ** The parts of Go's [strings] package used by the repository *)

Module Strings.

(** [s[n:]] *)
Fixpoint drop (n : nat) (s : string) : string :=
  match n, s with
  | O, _ => s
  | S _, EmptyString => EmptyString
  | S k, String _ s' => drop k s'
  end.

(** [s[:n]] *)
Fixpoint take (n : nat) (s : string) : string :=
  match n, s with
  | O, _ => EmptyString
  | S _, EmptyString => EmptyString
  | S k, String c s' => String c (take k s')
  end.

(** [strings.HasPrefix(s, p)] *)
Fixpoint HasPrefix (s p : string) : bool :=
  match p, s with
  | EmptyString, _ => true
  | String _ _, EmptyString => false
  | String a p', String b s' => Ascii.eqb a b && HasPrefix s' p'
  end.

(** [strings.Index(s, sep)]: position of the first occurrence of [sep],
    [None] standing for -1. *)
Fixpoint Index (s sep : string) : option nat :=
  if HasPrefix s sep then Some 0
  else match s with
       | EmptyString => None
       | String _ s' => option_map S (Index s' sep)
       end.

(** [strings.Contains(s, substr)] *)
Definition Contains (s substr : string) : bool :=
  match Index s substr with Some _ => true | None => false end.

(** [strings.Join(elems, sep)] *)
Fixpoint Join (elems : list string) (sep : string) : string :=
  match elems with
  | [] => ""
  | e :: rest =>
      match rest with
      | [] => e
      | _ :: _ => e ++ sep ++ Join rest sep
      end
  end.

(** The loop of [genSplit]: cut at the next occurrence of [sep] until
    there is none, then keep the remainder.  Every round consumes at
    least [length sep] bytes, so [length s] rounds of fuel are enough
    for a non-empty separator. *)
Fixpoint genSplit (fuel : nat) (s sep : string) : list string :=
  match Index s sep with
  | None => [s]
  | Some m =>
      match fuel with
      | O => [s]
      | S fuel' => take m s :: genSplit fuel' (drop (m + length sep) s) sep
      end
  end.

(** With an empty separator Go splits after each UTF-8 sequence; single
    bytes are used here, which is the same on ASCII text.  The
    repository never splits on the empty separator. *)
Fixpoint explode (s : string) : list string :=
  match s with
  | EmptyString => []
  | String c s' => String c EmptyString :: explode s'
  end.

(** [strings.Split(s, sep)] *)
Definition Split (s sep : string) : list string :=
  match sep with
  | EmptyString => explode s
  | String _ _ => genSplit (length s) s sep
  end.

(** [strings.TrimSpace(s)] on the ASCII white space (tab, line feed,
    vertical tab, form feed, carriage return, space).  The repository
    does not call it; it is used to state what trimming would do. *)
Definition is_space (c : ascii) : bool :=
  let n := nat_of_ascii c in
  (Nat.leb 9 n && Nat.leb n 13) || Nat.eqb n 32.

Fixpoint trim_left (s : string) : string :=
  match s with
  | EmptyString => EmptyString
  | String c s' => if is_space c then trim_left s' else s
  end.

Fixpoint trim_right (s : string) : string :=
  match s with
  | EmptyString => EmptyString
  | String c s' =>
      match trim_right s' with
      | EmptyString => if is_space c then EmptyString else String c EmptyString
      | String _ _ as t => String c t
      end
  end.

Definition TrimSpace (s : string) : string := trim_right (trim_left s).

(** Cutting at every comma, by recursion on the text: the reading of
    [Split s ","] that the proofs work with. *)
Fixpoint split_comma (s : string) : list string :=
  match s with
  | EmptyString => [EmptyString]
  | String c s' =>
      if Ascii.eqb "," c then EmptyString :: split_comma s'
      else match split_comma s' with
           | h :: t => String c h :: t
           | [] => [String c EmptyString]
           end
  end.

(** [strings.TrimPrefix(s, prefix)] *)
Definition TrimPrefix (s p : string) : string :=
  if HasPrefix s p then drop (String.length p) s else s.

(** Cutting at every occurrence of one byte, by recursion on the text:
    the reading of [Split s (String c "")] that the proofs work with. *)
Fixpoint split_byte (c : ascii) (s : string) : list string :=
  match s with
  | EmptyString => [EmptyString]
  | String b s' =>
      if Ascii.eqb c b then EmptyString :: split_byte c s'
      else match split_byte c s' with
           | h :: t => String b h :: t
           | [] => [String b EmptyString]
           end
  end.

End Strings.

Import Strings.

(* ================================================================== *)
(** ** Package [models]: data model and article store *)

Module models.

(** Instants of [time.Time]; [0] is the zero value. *)
Definition Time := nat.

(** [models.Article] *)
Record Article := mkArticle {
  ID : string;
  UserID : string;
  URL : string;
  Title : string;
  Summary : string;
  Tags : list string;
  Status : string;
  CreatedAt : Time;
  UpdatedAt : Time
}.

(** A row of the [articles] table created by [createTables]; the tags
    column holds the comma-joined text. *)
Record Row := mkRow {
  row_id : string;
  row_user_id : string;
  row_url : string;
  row_title : string;
  row_summary : string;
  row_tags : string;
  row_status : string;
  row_created_at : Time;
  row_updated_at : Time
}.

(** The step of a statement at which the driver reports an error. *)
Inductive Stage :=
  AtPrepare | AtExec | AtRowsAffected | AtQuery | AtScan | AtRowsErr.

Definition Stage_eqb (s t : Stage) : bool :=
  match s, t with
  | AtPrepare, AtPrepare | AtExec, AtExec
  | AtRowsAffected, AtRowsAffected | AtQuery, AtQuery
  | AtScan, AtScan | AtRowsErr, AtRowsErr => true
  | _, _ => false
  end.

(** The global [DB]: the contents of the [articles] table, in rowid
    order, together with the error (stage and driver message) the
    connection is going to report, if any, and what the engine answers
    to a listing query that carries a [tags LIKE ?] term.  SQLite's
    [LIKE] (its reading of UTF-8, its case folding, its limits on
    patterns) is no part of the repository and is not modelled:
    [like_query db userID statusFilter pattern rows] is the rows the
    engine yields for that query on the table [rows], followed by the
    error it raises while stepping, if it raises one. *)
Record DB := mkDB {
  articles : list Row;
  fault : option (Stage * string);
  like_query :
    string -> string -> string -> list Row -> list Row * option string
}.

Definition fails_at (db : DB) (st : Stage) : option string :=
  match fault db with
  | Some (st', msg) => if Stage_eqb st st' then Some msg else None
  | None => None
  end.

Definition with_articles (db : DB) (rs : list Row) : DB :=
  {| articles := rs; fault := fault db; like_query := like_query db |}.

(** [WHERE id=? AND user_id=?] *)
Definition matches (i u : string) (r : Row) : bool :=
  String.eqb (row_id r) i && String.eqb (row_user_id r) u.

(** Rows changed by an [UPDATE ... WHERE id=? AND user_id=?]. *)
Definition update_where (i u : string) (f : Row -> Row) (rs : list Row)
  : list Row :=
  map (fun r => if matches i u r then f r else r) rs.

Definition rows_affected (i u : string) (rs : list Row) : nat :=
  List.length (filter (matches i u) rs).

(** [id TEXT PRIMARY KEY] *)
Definition id_taken (i : string) (rs : list Row) : bool :=
  existsb (fun r => String.eqb (row_id r) i) rs.

Definition article_of_row (r : Row) : Article :=
  {| ID := row_id r; UserID := row_user_id r; URL := row_url r; Title := row_title r;
     Summary := row_summary r; Tags := Split (row_tags r) ",";
     Status := row_status r; CreatedAt := row_created_at r;
     UpdatedAt := row_updated_at r |}.

(** *** The article store ([models/article.go]) *)

Definition wrap (what err : string) : string := what ++ ": " ++ err.

(** The error of a mutation that touched no row. *)
Definition not_found (i u : string) : string :=
  "article with ID '" ++ i ++ "' not found or not owned by user '"
    ++ u ++ "'".

Definition row_of_article (a : Article) (tagsStr : string) : Row :=
  {| row_id := ID a; row_user_id := UserID a; row_url := URL a;
     row_title := Title a; row_summary := Summary a; row_tags := tagsStr;
     row_status := Status a; row_created_at := CreatedAt a;
     row_updated_at := UpdatedAt a |}.

(** [SET url=?, title=?, summary=?, tags=?, status=?, updated_at=?] *)
Definition set_all (a : Article) (tagsStr : string) (r : Row) : Row :=
  {| row_id := row_id r; row_user_id := row_user_id r; row_url := URL a;
     row_title := Title a; row_summary := Summary a; row_tags := tagsStr;
     row_status := Status a; row_created_at := row_created_at r;
     row_updated_at := UpdatedAt a |}.

(** [SET status=?, updated_at=CURRENT_TIMESTAMP] *)
Definition set_status (newStatus : string) (now : Time) (r : Row) : Row :=
  {| row_id := row_id r; row_user_id := row_user_id r; row_url := row_url r;
     row_title := row_title r; row_summary := row_summary r;
     row_tags := row_tags r; row_status := newStatus;
     row_created_at := row_created_at r; row_updated_at := now |}.

(** [SET tags=?, updated_at=CURRENT_TIMESTAMP] *)
Definition set_tags (tagsStr : string) (now : Time) (r : Row) : Row :=
  {| row_id := row_id r; row_user_id := row_user_id r; row_url := row_url r;
     row_title := row_title r; row_summary := row_summary r;
     row_tags := tagsStr; row_status := row_status r;
     row_created_at := row_created_at r; row_updated_at := now |}.

(** [(a *Article) Save()].  [uuid] is what [GenerateUUID] returns and
    [now] what [time.Now] returns during the call.  The receiver is
    mutated, so the article after the call is part of the result. *)
Definition Save (uuid : string) (now : Time) (a : Article) (db : DB)
  : Article * DB * option string :=
  let tagsStr := Join (Tags a) "," in
  if String.eqb (ID a) "" then
    let a1 := {| ID := uuid; UserID := UserID a; URL := URL a;
                 Title := Title a; Summary := Summary a; Tags := Tags a;
                 Status := Status a; CreatedAt := now; UpdatedAt := now |} in
    match fails_at db AtPrepare with
    | Some e =>
        (a1, db, Some (wrap "failed to prepare article insert statement" e))
    | None =>
        match fails_at db AtExec with
        | Some e => (a1, db, Some (wrap "failed to insert article" e))
        | None =>
            if id_taken uuid (articles db) then
              (a1, db, Some (wrap "failed to insert article"
                                  "UNIQUE constraint failed: articles.id"))
            else
              (a1,
               with_articles db (articles db ++ [row_of_article a1 tagsStr]),
               None)
        end
    end
  else
    let a1 := {| ID := ID a; UserID := UserID a; URL := URL a;
                 Title := Title a; Summary := Summary a; Tags := Tags a;
                 Status := Status a; CreatedAt := CreatedAt a;
                 UpdatedAt := now |} in
    match fails_at db AtPrepare with
    | Some e =>
        (a1, db, Some (wrap "failed to prepare article update statement" e))
    | None =>
        match fails_at db AtExec with
        | Some e => (a1, db, Some (wrap "failed to update article" e))
        | None =>
            (a1,
             with_articles db
               (update_where (ID a) (UserID a) (set_all a1 tagsStr)
                             (articles db)),
             None)
        end
    end.

(** [DeleteArticle(id, userID)] *)
Definition DeleteArticle (i userID : string) (db : DB) : DB * option string :=
  match fails_at db AtPrepare with
  | Some e => (db, Some (wrap "failed to prepare article delete statement" e))
  | None =>
      match fails_at db AtExec with
      | Some e => (db, Some (wrap "failed to delete article" e))
      | None =>
          let db' :=
            with_articles db
              (filter (fun r => negb (matches i userID r)) (articles db)) in
          match fails_at db AtRowsAffected with
          | Some e => (db', Some (wrap "failed to get rows affected" e))
          | None =>
              if Nat.eqb (rows_affected i userID (articles db)) 0
              then (db', Some (not_found i userID))
              else (db', None)
          end
      end
  end.

(** [UpdateArticleStatus(id, userID, newStatus)] *)
Definition UpdateArticleStatus (i userID newStatus : string) (now : Time)
    (db : DB) : DB * option string :=
  match fails_at db AtPrepare with
  | Some e =>
      (db, Some (wrap "failed to prepare article status update statement" e))
  | None =>
      match fails_at db AtExec with
      | Some e => (db, Some (wrap "failed to update article status" e))
      | None =>
          let db' :=
            with_articles db
              (update_where i userID (set_status newStatus now)
                            (articles db)) in
          match fails_at db AtRowsAffected with
          | Some e => (db', Some (wrap "failed to get rows affected" e))
          | None =>
              if Nat.eqb (rows_affected i userID (articles db)) 0
              then (db', Some (not_found i userID))
              else (db', None)
          end
      end
  end.

(** [UpdateArticleTags(id, userID, newTags)] *)
Definition UpdateArticleTags (i userID : string) (newTags : list string)
    (now : Time) (db : DB) : DB * option string :=
  let tagsStr := Join newTags "," in
  match fails_at db AtPrepare with
  | Some e =>
      (db, Some (wrap "failed to prepare article tags update statement" e))
  | None =>
      match fails_at db AtExec with
      | Some e => (db, Some (wrap "failed to update article tags" e))
      | None =>
          let db' :=
            with_articles db
              (update_where i userID (set_tags tagsStr now) (articles db)) in
          match fails_at db AtRowsAffected with
          | Some e => (db', Some (wrap "failed to get rows affected" e))
          | None =>
              if Nat.eqb (rows_affected i userID (articles db)) 0
              then (db', Some (not_found i userID))
              else (db', None)
          end
      end
  end.

(** The [WHERE] clause [GetArticlesByUserID] builds when no tag filter
    is given. *)
Definition selected (userID statusFilter : string) (r : Row) : bool :=
  String.eqb (row_user_id r) userID
  && (if String.eqb statusFilter "" then true
      else String.eqb (row_status r) statusFilter).

(** [GetArticlesByUserID(userID, statusFilter, tagFilter)]; without a
    tag filter the rows come back in table order, with one the answer
    is the engine's. *)
Definition GetArticlesByUserID (userID statusFilter tagFilter : string)
    (db : DB) : list Article * option string :=
  match fails_at db AtQuery with
  | Some e => ([], Some (wrap "failed to query articles" e))
  | None =>
      let '(rows, stepErr) :=
        if String.eqb tagFilter "" then
          (filter (selected userID statusFilter) (articles db), None)
        else
          like_query db userID statusFilter ("%" ++ tagFilter ++ "%")
                     (articles db) in
      match rows, fails_at db AtScan with
      | _ :: _, Some e => ([], Some (wrap "failed to scan article row" e))
      | _, _ =>
          match stepErr with
          | Some e => ([], Some (wrap "error iterating article rows" e))
          | None =>
              match fails_at db AtRowsErr with
              | Some e => ([], Some (wrap "error iterating article rows" e))
              | None => (map article_of_row rows, None)
              end
          end
      end
  end.

(** [GetArticleByID(id, userID)]: [QueryRow] defers its error to [Scan],
    which yields [sql.ErrNoRows] when nothing matches. *)
Definition GetArticleByID (i userID : string) (db : DB)
  : option Article * option string :=
  match fails_at db AtQuery with
  | Some e => (None, Some (wrap "failed to get article by ID" e))
  | None =>
      match find (matches i userID) (articles db) with
      | None => (None, None)
      | Some r =>
          match fails_at db AtScan with
          | Some e => (None, Some (wrap "failed to get article by ID" e))
          | None => (Some (article_of_row r), None)
          end
      end
  end.

(** [GetTagsByUserID(userID)].  The tags are collected in a Go map and
    returned in the order its iteration happens to take; the list here
    is one such order, without repetition. *)
Definition GetTagsByUserID (userID : string) (db : DB)
  : list string * option string :=
  match fails_at db AtQuery with
  | Some e => ([], Some (wrap "failed to query tags" e))
  | None =>
      let rows :=
        nodup string_dec
              (map row_tags
                   (filter (fun r => String.eqb (row_user_id r) userID)
                           (articles db))) in
      match rows, fails_at db AtScan with
      | _ :: _, Some e => ([], Some (wrap "failed to scan tag row" e))
      | _, _ =>
          match fails_at db AtRowsErr with
          | Some e => ([], Some (wrap "error iterating tag rows" e))
          | None =>
              (nodup string_dec (flat_map (fun t => Split t ",") rows), None)
          end
      end
  end.

End models.

(* ================================================================== *)
(** ** Package [services]: the background ingestion run *)

Module services.

Import models.

(** What the run needs from an [*http.Response]: the status code, the
    outcome of [io.ReadAll] on the body ([None] for a read error) and
    [Request.URL.String()], the address reached after redirects. *)
Record HTTPResponse := mkHTTPResponse {
  StatusCode : nat;
  Body : option string;
  RequestURL : string
}.

Definition StatusOK : nat := 200.

(** What the run reads off a parsed document: [doc.Find("title").Text()]
    and [doc.Find("body").Text()]. *)
Record Document := mkDocument {
  title_Text : string;
  body_Text : string
}.

(** Results of [client.Models.GenerateContent]: an error, a nil
    response without error, or a response whose [Text()] is given. *)
Inductive GenerateResult :=
| GenError (err : string)
| GenNil
| GenResponse (text : string).

(** Everything outside the process that a run consults.  The [n]-th
    call of [GenerateContent] in a run (counted from 0) is answered by
    [GenerateContent n model contents]. *)
Record World := mkWorld {
  http_Get : string -> option HTTPResponse;
  NewDocumentFromReader : string -> option Document;
  GEMINI_API_KEY : string;
  NewClient : string -> bool;
  GenerateContent : nat -> string -> string -> GenerateResult;
  GenerateUUID : string;
  Now : Time
}.

Inductive Event :=
| EvGet (u : string)
| EvGenerate (model contents : string)
| EvSave (a : Article).

(** The state a run leaves behind: the article it was handed (mutated in
    place), the store, the outside calls it made in order, and whether
    it ended the process through [log.Fatal]. *)
Record Run := mkRun {
  article : Article;
  store : DB;
  trace : list Event;
  exited : bool
}.

Definition set_Status (a : Article) (s : string) : Article :=
  {| ID := ID a; UserID := UserID a; URL := URL a; Title := Title a;
     Summary := Summary a; Tags := Tags a; Status := s;
     CreatedAt := CreatedAt a; UpdatedAt := UpdatedAt a |}.

Definition set_Title_URL (a : Article) (t u : string) : Article :=
  {| ID := ID a; UserID := UserID a; URL := u; Title := t;
     Summary := Summary a; Tags := Tags a; Status := Status a;
     CreatedAt := CreatedAt a; UpdatedAt := UpdatedAt a |}.

Definition set_result (a : Article) (s : string) (ts : list string)
    (st : string) : Article :=
  {| ID := ID a; UserID := UserID a; URL := URL a; Title := Title a;
     Summary := s; Tags := ts; Status := st;
     CreatedAt := CreatedAt a; UpdatedAt := UpdatedAt a |}.

Definition model_name : string := "gemini-2.5-flash".

Definition summary_prompt (bodyText : string) : string :=
  "Summarize the following article: " ++ bodyText.

Definition tags_prompt (bodyText : string) : string :=
  "Generate a comma-separated list of tags for the following article: "
    ++ bodyText.

(** [ProcessNewArticle(article)] *)
Definition ProcessNewArticle (w : World) (a : Article) (db : DB) : Run :=
  let tr := [EvGet (URL a)] in
  (* 1. Fetch the content *)
  match http_Get w (URL a) with
  | None =>
      let a := set_Status a "failed" in
      let '(a', db', _) := Save (GenerateUUID w) (Now w) a db in
      mkRun a' db' (tr ++ [EvSave a])%list false
  | Some fullContent =>
      if negb (Nat.eqb (StatusCode fullContent) StatusOK) then
        mkRun a db tr false
      else
      match Body fullContent with
      | None => mkRun a db tr false
      | Some body =>
      match NewDocumentFromReader w body with
      | None => mkRun a db tr false
      | Some doc =>
          let title := title_Text doc in
          let bodyText := body_Text doc in
          let title := if String.eqb title "" then URL a else title in
          let a := set_Title_URL a title (RequestURL fullContent) in
          (* 2. Summarize the content *)
          let apiKey := GEMINI_API_KEY w in
          if String.eqb apiKey "" then mkRun a db tr true
          else if negb (NewClient w apiKey) then mkRun a db tr false
          else
          let tr := (tr ++ [EvGenerate model_name (summary_prompt bodyText)])%list in
          match GenerateContent w 0 model_name (summary_prompt bodyText) with
          | GenError _ => mkRun a db tr false
          | GenNil => mkRun a db tr false
          | GenResponse summaryText =>
          let tr := (tr ++ [EvGenerate model_name (tags_prompt bodyText)])%list in
          match GenerateContent w 1 model_name (tags_prompt bodyText) with
          | GenError _ => mkRun a db tr false
          | GenNil => mkRun a db tr false
          | GenResponse tagsText =>
              (* 3. Update the article in the database *)
              let a := set_result a summaryText (Split tagsText ",")
                                  "unread" in
              let '(a', db', _) := Save (GenerateUUID w) (Now w) a db in
              mkRun a' db' (tr ++ [EvSave a])%list false
          end
          end
      end
      end
  end.

End services.

(* ================================================================== *)
(** ** Package [handlers]: the article endpoints *)

Module handlers.

Import models.

(** What a handler wrote to the [http.ResponseWriter]. *)
Inductive Payload :=
| Text (msg : string)
| ArticleJSON (a : Article)
| LaunchedArticleJSON (a : Article)
| MessageJSON (message : string)
| NoBody.

Record Response := mkResponse {
  code : nat;
  payload : Payload
}.

Definition StatusOK : nat := 200.
Definition StatusCreated : nat := 201.
Definition StatusNoContent : nat := 204.
Definition StatusBadRequest : nat := 400.
Definition StatusUnauthorized : nat := 401.
Definition StatusNotFound : nat := 404.
Definition StatusInternalServerError : nat := 500.

(** [http.Error(w, msg, code)] *)
Definition http_Error (msg : string) (c : nat) : Response :=
  mkResponse c (Text msg).

(** In every handler [ctxUserID] is the outcome of
    [r.Context().Value(UserIDKey).(string)] ([None] when the assertion
    fails), [articleID] is [chi.URLParam(r, "id")], and the body
    argument is the decoded request ([None] when decoding fails). *)

(** [SubmitArticle]: besides the response and the store, the article the
    handler hands to [go services.ProcessNewArticle], if it got that
    far.  The handler encodes that same article after the run has been
    started, while the run may be writing to it: [LaunchedArticleJSON a]
    stands for the encoding of the article shared with the run, which
    was [a] when the run was started; what the body shows of the fields
    the run writes is not determined. *)
Definition SubmitArticle (ctxUserID : option string) (reqURL : option string)
    (uuid : string) (now : Time) (db : DB)
  : Response * DB * option Article :=
  match ctxUserID with
  | None =>
      (http_Error "Unauthorized: User ID not found" StatusUnauthorized,
       db, None)
  | Some userID =>
      match reqURL with
      | None => (http_Error "Invalid request payload" StatusBadRequest,
                 db, None)
      | Some u =>
          if String.eqb u "" then
            (http_Error "URL is required" StatusBadRequest, db, None)
          else
            let a := {| ID := ""; UserID := userID; URL := u; Title := "";
                        Summary := ""; Tags := []; Status := "processing";
                        CreatedAt := 0; UpdatedAt := 0 |} in
            match Save uuid now a db with
            | (_, db', Some _) =>
                (http_Error "Failed to submit article"
                            StatusInternalServerError, db', None)
            | (a', db', None) =>
                (mkResponse StatusCreated (LaunchedArticleJSON a'), db',
                 Some a')
            end
      end
  end.

(** [DeleteArticle] *)
Definition DeleteArticle (ctxUserID : option string) (articleID : string)
    (db : DB) : Response * DB :=
  match ctxUserID with
  | None =>
      (http_Error "Unauthorized: User ID not found" StatusUnauthorized, db)
  | Some userID =>
      if String.eqb userID "" then
        (http_Error "Unauthorized: User ID not found" StatusUnauthorized, db)
      else if String.eqb articleID "" then
        (http_Error "Article ID is required" StatusBadRequest, db)
      else
        match models.DeleteArticle articleID userID db with
        | (db', Some err) =>
            if Contains err "not found or not owned" then
              (http_Error "Article not found or not owned by user"
                          StatusNotFound, db')
            else
              (http_Error "Failed to delete article"
                          StatusInternalServerError, db')
        | (db', None) => (mkResponse StatusNoContent NoBody, db')
        end
  end.

(** [ReturnArticle] *)
Definition ReturnArticle (ctxUserID : option string) (articleID : string)
    (db : DB) : Response :=
  match ctxUserID with
  | None => http_Error "Unauthorized: User ID not found" StatusUnauthorized
  | Some userID =>
      if String.eqb userID "" then
        http_Error "Unauthorized: User ID not found" StatusUnauthorized
      else if String.eqb articleID "" then
        http_Error "Article ID is required" StatusBadRequest
      else
        match GetArticleByID articleID userID db with
        | (_, Some _) =>
            http_Error "Failed to fetch article" StatusInternalServerError
        | (None, None) => http_Error "Article not found" StatusNotFound
        | (Some a, None) => mkResponse StatusOK (ArticleJSON a)
        end
  end.

(** [UpdateArticleStatus]; [reqStatus] is the decoded [status] field. *)
Definition UpdateArticleStatus (ctxUserID : option string)
    (articleID : string) (reqStatus : option string) (now : Time) (db : DB)
  : Response * DB :=
  match ctxUserID with
  | None =>
      (http_Error "Unauthorized: User ID not found" StatusUnauthorized, db)
  | Some userID =>
      if String.eqb articleID "" then
        (http_Error "Article ID is required" StatusBadRequest, db)
      else
        match reqStatus with
        | None => (http_Error "Invalid request payload" StatusBadRequest, db)
        | Some st =>
            if negb (String.eqb st "read") && negb (String.eqb st "unread")
            then
              (http_Error "Status must be 'processing', 'read' or 'unread'"
                          StatusBadRequest, db)
            else
              match models.UpdateArticleStatus articleID userID st now db with
              | (db', Some err) =>
                  if Contains err "not found or not owned" then
                    (http_Error "Article not found or not owned by user"
                                StatusNotFound, db')
                  else
                    (http_Error "Failed to update article status"
                                StatusInternalServerError, db')
              | (db', None) =>
                  (mkResponse StatusOK
                              (MessageJSON "Status updated successfully"),
                   db')
              end
        end
  end.

(** [UpdateArticleTags]; [reqTags] is the decoded [tags] field. *)
Definition UpdateArticleTags (ctxUserID : option string)
    (articleID : string) (reqTags : option (list string)) (now : Time)
    (db : DB) : Response * DB :=
  match ctxUserID with
  | None =>
      (http_Error "Unauthorized: User ID not found" StatusUnauthorized, db)
  | Some userID =>
      if String.eqb articleID "" then
        (http_Error "Article ID is required" StatusBadRequest, db)
      else
        match reqTags with
        | None => (http_Error "Invalid request payload" StatusBadRequest, db)
        | Some ts =>
            if Nat.eqb (List.length ts) 0 then
              (http_Error "Tags cannot be empty" StatusBadRequest, db)
            else
              match models.UpdateArticleTags articleID userID ts now db with
              | (db', Some err) =>
                  if Contains err "not found or not owned" then
                    (http_Error "Article not found or not owned by user"
                                StatusNotFound, db')
                  else
                    (http_Error "Failed to update article tags"
                                StatusInternalServerError, db')
              | (db', None) =>
                  (mkResponse StatusOK
                              (MessageJSON "Tags updated successfully"),
                   db')
              end
        end
  end.

End handlers.

(* ================================================================== *)
(** ** The operations that change the store *)

Import models.



(* ================================================================== *)
(** ** Notions used in the statements *)

Import services.

(** The connection reports no error. *)
Definition healthy (db : DB) : Prop := fault db = None.

(** No row has both this id and this owner. *)
Definition unowned (i u : string) (db : DB) : Prop :=
  forall r, In r (articles db) -> matches i u r = false.

(** No row has this id, whoever owns it. *)
Definition absent (i : string) (db : DB) : Prop :=
  forall r, In r (articles db) -> row_id r <> i.

(** Some row has this id and this owner. *)
Definition owned (i u : string) (db : DB) : Prop :=
  exists r, In r (articles db) /\ matches i u r = true.

(** The receiver after an updating [Save] at instant [now]. *)
Definition touch (a : Article) (now : Time) : Article :=
  {| ID := ID a; UserID := UserID a; URL := URL a; Title := Title a;
     Summary := Summary a; Tags := Tags a; Status := Status a;
     CreatedAt := CreatedAt a; UpdatedAt := now |}.

(** The receiver after an inserting [Save] at instant [now]. *)
Definition created (a : Article) (uuid : string) (now : Time) : Article :=
  {| ID := uuid; UserID := UserID a; URL := URL a; Title := Title a;
     Summary := Summary a; Tags := Tags a; Status := Status a;
     CreatedAt := now; UpdatedAt := now |}.

(** The row a lookup by id and owner lands on. *)
Definition persisted (i u : string) (db : DB) : option Row :=
  find (matches i u) (articles db).


Definition no_comma (t : string) : Prop := Contains t "," = false.

(** Id and owner of every row, in table order. *)
Definition keys (db : DB) : list (string * string) :=
  map (fun r => (row_id r, row_user_id r)) (articles db).

(** The response and the document of a run whose fetch, status check,
    body read and parse all succeed. *)
Definition extracted (w : World) (a : Article)
  : option (HTTPResponse * Document) :=
  match http_Get w (URL a) with
  | None => None
  | Some fullContent =>
      if negb (Nat.eqb (StatusCode fullContent) services.StatusOK) then None
      else match Body fullContent with
           | None => None
           | Some body =>
               match NewDocumentFromReader w body with
               | None => None
               | Some doc => Some (fullContent, doc)
               end
           end
  end.

(** A generation call that errors or returns no response. *)
Definition gen_failed (g : GenerateResult) : Prop :=
  match g with
  | GenResponse _ => False
  | _ => True
  end.

Definition is_generate (e : Event) : bool :=
  match e with EvGenerate _ _ => true | _ => false end.

Definition is_save (e : Event) : bool :=
  match e with EvSave _ => true | _ => false end.

Definition enrichment_calls (r : Run) : nat :=
  List.length (filter is_generate (trace r)).

Definition store_writes (r : Run) : nat :=
  List.length (filter is_save (trace r)).

(** The title the run assigns once a document has been extracted. *)
Definition title_or_url (doc : Document) (a : Article) : string :=
  if String.eqb (title_Text doc) "" then URL a else title_Text doc.

(** The prompts of the two generation calls. *)
Definition summary_call (doc : Document) : Event :=
  EvGenerate model_name (summary_prompt (body_Text doc)).

Definition tags_call (doc : Document) : Event :=
  EvGenerate model_name (tags_prompt (body_Text doc)).

Definition summary_answer (w : World) (doc : Document) : GenerateResult :=
  GenerateContent w 0 model_name (summary_prompt (body_Text doc)).

Definition tags_answer (w : World) (doc : Document) : GenerateResult :=
  GenerateContent w 1 model_name (tags_prompt (body_Text doc)).




(* ================================================================== *)
(** ** Sample data *)

(** Alice's submission of [http://x.test/a] as [SubmitArticle] creates
    it at instant 10 under the generated id [id-1]. *)
Definition article_alice : Article :=
  {| ID := "id-1"; UserID := "alice"; URL := "http://x.test/a";
     Title := ""; Summary := ""; Tags := []; Status := "processing";
     CreatedAt := 10; UpdatedAt := 10 |}.

Definition row_alice : Row :=
  {| row_id := "id-1"; row_user_id := "alice"; row_url := "http://x.test/a";
     row_title := ""; row_summary := ""; row_tags := "";
     row_status := "processing"; row_created_at := 10;
     row_updated_at := 10 |}.

(** An engine that yields no row to a query with a tag filter. *)
Definition no_like_rows (userID statusFilter pattern : string)
    (rows : list Row) : list Row * option string := ([], None).

Definition db_empty : DB :=
  {| articles := []; fault := None; like_query := no_like_rows |}.

Definition db_alice : DB :=
  {| articles := [row_alice]; fault := None; like_query := no_like_rows |}.

(** A world in which the page answers with the given status code, the
    document has the given title and the body text [B], the two
    generation calls answer [g0] and [g1], and the instant is 20. *)
Definition world_page (statusCode : nat) (titleText : string)
    (g0 g1 : GenerateResult) : World :=
  {| http_Get := fun u =>
       Some {| StatusCode := statusCode; Body := Some "<html>";
               RequestURL := u |};
     NewDocumentFromReader := fun _ =>
       Some {| title_Text := titleText; body_Text := "B" |};
     GEMINI_API_KEY := "key";
     NewClient := fun _ => true;
     GenerateContent := fun n _ _ => match n with 0 => g0 | _ => g1 end;
     GenerateUUID := "id-2";
     Now := 20 |}.

(** The same world with the host unreachable. *)
Definition world_down : World :=
  {| http_Get := fun _ => None;
     NewDocumentFromReader := fun _ => None;
     GEMINI_API_KEY := "key";
     NewClient := fun _ => true;
     GenerateContent := fun _ _ _ => GenNil;
     GenerateUUID := "id-2";
     Now := 20 |}.

(* ================================================================== *)
(** ** Further notions *)

(** The rows a statement with [WHERE id=? AND user_id=?] does not
    address. *)
Definition others (i u : string) (db : DB) : list Row :=
  filter (fun r => negb (matches i u r)) (articles db).

(** A row with a new [updated_at] and nothing else changed. *)
Definition touched (r : Row) (now : Time) : Row :=
  {| row_id := row_id r; row_user_id := row_user_id r; row_url := row_url r;
     row_title := row_title r; row_summary := row_summary r;
     row_tags := row_tags r; row_status := row_status r;
     row_created_at := row_created_at r; row_updated_at := now |}.

(** An article with other tags and another creation instant. *)
Definition as_stored (a : Article) (ts : list string) (createdAt : Time)
  : Article :=
  {| ID := ID a; UserID := UserID a; URL := URL a; Title := Title a;
     Summary := Summary a; Tags := ts; Status := Status a;
     CreatedAt := createdAt; UpdatedAt := UpdatedAt a |}.

(** The run gets as far as its final [Save]: the document is extracted,
    the API key is set, the client is created and both generation calls
    return a response. *)
Definition commits (w : World) (a : Article) : Prop :=
  exists resp doc s t,
    extracted w a = Some (resp, doc)
    /\ GEMINI_API_KEY w <> ""
    /\ NewClient w (GEMINI_API_KEY w) = true
    /\ summary_answer w doc = GenResponse s
    /\ tags_answer w doc = GenResponse t.

(** Two rows, Alice's and Bob's, Bob's already read and tagged. *)
Definition row_bob : Row :=
  {| row_id := "id-7"; row_user_id := "bob"; row_url := "http://y.test/b";
     row_title := "B"; row_summary := "about b"; row_tags := "go,sql";
     row_status := "read"; row_created_at := 5; row_updated_at := 8 |}.

Definition db_two : DB :=
  {| articles := [row_bob; row_alice]; fault := None;
     like_query := no_like_rows |}.

(* ================================================================== *)
(** ** Package [models], continued: users and revoked tokens *)

(** [models/user.go] and the revoked-token file of the same package.
    They are kept in a module of their own because [User] has fields
    named like those of [Article]. *)
Module accounts.

Import models.

(** [models.User]; it is also the shape of a row of the [users] table. *)
Record User := mkUser {
  ID : string;
  Username : string;
  PasswordHash : string;
  CreatedAt : Time
}.

(** [models.RevokedToken], a row of the [revoked_tokens] table. *)
Record RevokedToken := mkRevokedToken {
  Token : string;
  ExpiresAt : Time
}.

(** The [users] and [revoked_tokens] tables behind the global [DB], in
    rowid order, with the error the connection is going to report, if
    any.  The statements below read and change no other table. *)
Record Tables := mkTables {
  users : list User;
  revoked_tokens : list RevokedToken;
  trouble : option (Stage * string)
}.

Definition goes_wrong (t : Tables) (st : Stage) : option string :=
  match trouble t with
  | Some (st', msg) => if Stage_eqb st st' then Some msg else None
  | None => None
  end.

(** The two functions of [golang.org/x/crypto/bcrypt] that are called:
    [GenerateFromPassword] at the default cost, which returns a hash or
    an error, and [CompareHashAndPassword], [true] standing for a nil
    error. *)
Inductive HashResult :=
| HashError (err : string)
| Hashed (hash : string).

Record Bcrypt := mkBcrypt {
  GenerateFromPassword : string -> HashResult;
  CompareHashAndPassword : string -> string -> bool
}.

(** [(u *User) HashPassword(password)] *)
Definition HashPassword (b : Bcrypt) (u : User) (password : string)
  : User * option string :=
  match GenerateFromPassword b password with
  | HashError err => (u, Some (wrap "failed to hash password" err))
  | Hashed bytes =>
      ({| ID := ID u; Username := Username u; PasswordHash := bytes;
          CreatedAt := CreatedAt u |}, None)
  end.

(** [(u *User) CheckPasswordHash(password)] *)
Definition CheckPasswordHash (b : Bcrypt) (u : User) (password : string)
  : bool :=
  CompareHashAndPassword b (PasswordHash u) password.

(** [id TEXT PRIMARY KEY] and [username TEXT UNIQUE] of [users]. *)
Definition user_id_taken (i : string) (us : list User) : bool :=
  existsb (fun r => String.eqb (ID r) i) us.

Definition username_taken (n : string) (us : list User) : bool :=
  existsb (fun r => String.eqb (Username r) n) us.

(** The [Exec] of the insert into [users]: the driver's error, a
    violated constraint, or the table with the row added. *)
Definition insert_user (user : User) (t : Tables) : string + Tables :=
  match goes_wrong t AtExec with
  | Some e => inl e
  | None =>
      if user_id_taken (ID user) (users t) then
        inl "UNIQUE constraint failed: users.id"
      else if username_taken (Username user) (users t) then
        inl "UNIQUE constraint failed: users.username"
      else
        inr {| users := users t ++ [user];
               revoked_tokens := revoked_tokens t;
               trouble := trouble t |}
  end.

(** [CreateUser(user)]; [uuid] is what [GenerateUUID] returns and [now]
    what [time.Now] returns.  The argument is mutated, so the user after
    the call is part of the result. *)
Definition CreateUser (uuid : string) (now : Time) (user : User) (t : Tables)
  : User * Tables * option string :=
  let user :=
    if String.eqb (ID user) "" then
      {| ID := uuid; Username := Username user;
         PasswordHash := PasswordHash user; CreatedAt := CreatedAt user |}
    else user in
  let user :=
    if Nat.eqb (CreatedAt user) 0 then
      {| ID := ID user; Username := Username user;
         PasswordHash := PasswordHash user; CreatedAt := now |}
    else user in
  match goes_wrong t AtPrepare with
  | Some e =>
      (user, t, Some (wrap "failed to prepare user insert statement" e))
  | None =>
      match insert_user user t with
      | inl err =>
          if Contains err "UNIQUE constraint failed" then
            (user, t,
             Some ("username '" ++ Username user ++ "' already exists"))
          else (user, t, Some (wrap "failed to create user" err))
      | inr t' => (user, t', None)
      end
  end.

(** [WHERE username = ?] through [QueryRow] and [Scan]. *)
Inductive Lookup :=
| NoRows
| ScanError (err : string)
| Scanned (u : User).

Definition lookup_username (username : string) (t : Tables) : Lookup :=
  match goes_wrong t AtQuery with
  | Some e => ScanError e
  | None =>
      match find (fun r => String.eqb (Username r) username) (users t) with
      | None => NoRows
      | Some r =>
          match goes_wrong t AtScan with
          | Some e => ScanError e
          | None => Scanned r
          end
      end
  end.

(** [AuthenticateUser(username, password)] *)
Definition AuthenticateUser (b : Bcrypt) (username password : string)
    (t : Tables) : option User * option string :=
  match lookup_username username t with
  | NoRows => (None, Some "invalid username or password")
  | ScanError e => (None, Some (wrap "failed to get user by username" e))
  | Scanned user =>
      if negb (CheckPasswordHash b user password) then
        (None, Some "invalid username or password")
      else (Some user, None)
  end.

(** The errors of [GetUserByUsername]: [sql.ErrNoRows] itself, which
    callers compare by identity, or a wrapped driver error. *)
Inductive LookupError :=
| ErrNoRows
| ErrOther (msg : string).

(** [GetUserByUsername(username)] *)
Definition GetUserByUsername (username : string) (t : Tables)
  : option User * option LookupError :=
  match lookup_username username t with
  | NoRows => (None, Some ErrNoRows)
  | ScanError e =>
      (None, Some (ErrOther (wrap "failed to get user by username" e)))
  | Scanned user => (Some user, None)
  end.

Definition token_revoked (token : string) (rs : list RevokedToken) : bool :=
  existsb (fun r => String.eqb (Token r) token) rs.

(** [RevokeToken(token, expiresAt)]; [token] is the primary key. *)
Definition RevokeToken (token : string) (expiresAt : Time) (t : Tables)
  : Tables * option string :=
  match goes_wrong t AtPrepare with
  | Some e => (t, Some e)
  | None =>
      match goes_wrong t AtExec with
      | Some e => (t, Some e)
      | None =>
          if token_revoked token (revoked_tokens t) then
            (t, Some "UNIQUE constraint failed: revoked_tokens.token")
          else
            ({| users := users t;
                revoked_tokens :=
                  revoked_tokens t
                    ++ [{| Token := token; ExpiresAt := expiresAt |}];
                trouble := trouble t |}, None)
      end
  end.

(** [IsTokenRevoked(token)] *)
Definition IsTokenRevoked (token : string) (t : Tables)
  : bool * option string :=
  match goes_wrong t AtQuery with
  | Some e => (false, Some e)
  | None =>
      match goes_wrong t AtScan with
      | Some e => (false, Some e)
      | None => (token_revoked token (revoked_tokens t), None)
      end
  end.

End accounts.

(* ================================================================== *)
(** ** Package [handlers], continued: registration, login, logout and
    the authentication middleware *)

Module auth.

Import models.

(** [handlers.Claims]: the user id and, of the registered claims, the
    two that are set. *)
Record Claims := mkClaims {
  UserID : string;
  ExpiresAt : Time;
  IssuedAt : Time
}.

(** Results of [token.SignedString(config.JwtSecret)]. *)
Inductive Signed :=
| SignError (err : string)
| SignedAs (tokenString : string).

(** What [LogoutUser] gets out of [ParseUnverified]: a parse error,
    claims that are not map claims, map claims without a numeric [exp],
    or the instant [time.Unix(int64(exp), 0)]. *)
Inductive Unverified :=
| ParseError
| NotMapClaims
| NoExpiry
| Expiry (expirationTime : Time).

(** What the handlers take from outside the repository: the compiled
    [emailRegex], bcrypt, and the JWT library signing with and checking
    against [config.JwtSecret].  [ParseWithClaims] gives the user id of
    the claims when the token parses, is signed with an HMAC method and
    is valid, and [None] otherwise. *)
Record Env := mkEnv {
  MatchString : string -> bool;
  bcrypt : accounts.Bcrypt;
  SignedString : Claims -> Signed;
  ParseWithClaims : string -> option string;
  ParseUnverified : string -> Unverified
}.

(** Instants are counted in seconds here. *)
Definition Hour : Time := 3600.

(** [generateJWT(userID)]; [now] and [issued] are what the two calls of
    [time.Now] return. *)
Definition generateJWT (env : Env) (userID : string) (now issued : Time)
  : string * option string :=
  let expirationTime := now + 24 * Hour in
  let claims := {| UserID := userID; ExpiresAt := expirationTime;
                   IssuedAt := issued |} in
  match SignedString env claims with
  | SignError err => ("", Some (wrap "failed to sign token" err))
  | SignedAs tokenString => (tokenString, None)
  end.

(** What a handler wrote to the [http.ResponseWriter]. *)
Inductive Payload :=
| Text (msg : string)
| UserJSON (u : accounts.User)
| TokenJSON (token : string).

Record Response := mkResponse {
  code : nat;
  payload : Payload
}.

Definition StatusOK : nat := 200.
Definition StatusCreated : nat := 201.
Definition StatusBadRequest : nat := 400.
Definition StatusUnauthorized : nat := 401.
Definition StatusConflict : nat := 409.
Definition StatusInternalServerError : nat := 500.

Definition http_Error (msg : string) (c : nat) : Response :=
  mkResponse c (Text msg).

(** [RegisterUser]; [req] is the decoded body, username and password
    ([None] when decoding fails). *)
Definition RegisterUser (env : Env) (req : option (string * string))
    (uuid : string) (now : Time) (t : accounts.Tables)
  : Response * accounts.Tables :=
  match req with
  | None => (http_Error "Invalid request payload" StatusBadRequest, t)
  | Some (username, password) =>
      if String.eqb username "" || String.eqb password "" then
        (http_Error "Username and password are required" StatusBadRequest, t)
      else if negb (MatchString env username) then
        (http_Error "Username must be a valid email address"
                    StatusBadRequest, t)
      else
        match accounts.GetUserByUsername username t with
        | (_, None) =>
            (http_Error ("Username '" ++ username ++ "' already exists")
                        StatusConflict, t)
        | (_, Some (accounts.ErrOther _)) =>
            (http_Error "Failed to check username"
                        StatusInternalServerError, t)
        | (_, Some accounts.ErrNoRows) =>
            let user := {| accounts.ID := ""; accounts.Username := username;
                           accounts.PasswordHash := "";
                           accounts.CreatedAt := 0 |} in
            match accounts.HashPassword (bcrypt env) user password with
            | (_, Some _) =>
                (http_Error "Failed to process password"
                            StatusInternalServerError, t)
            | (user, None) =>
                match accounts.CreateUser uuid now user t with
                | (_, t', Some err) =>
                    if String.eqb err ("username '" ++ username
                                         ++ "' already exists")
                    then (http_Error err StatusConflict, t')
                    else (http_Error "Failed to register user"
                                     StatusInternalServerError, t')
                | (user, t', None) =>
                    (mkResponse StatusCreated (UserJSON user), t')
                end
            end
        end
  end.

(** [LoginUser] *)
Definition LoginUser (env : Env) (req : option (string * string))
    (now issued : Time) (t : accounts.Tables) : Response :=
  match req with
  | None => http_Error "Invalid request payload" StatusBadRequest
  | Some (username, password) =>
      if String.eqb username "" || String.eqb password "" then
        http_Error "Username and password are required" StatusBadRequest
      else if negb (MatchString env username) then
        http_Error "Username must be a valid email address" StatusBadRequest
      else
        match accounts.AuthenticateUser (bcrypt env) username password t with
        | (_, Some _) =>
            http_Error "Invalid username or password" StatusUnauthorized
        | (None, None) =>
            (* [AuthenticateUser] returns a user whenever it returns no
               error; this branch is never taken. *)
            http_Error "Invalid username or password" StatusUnauthorized
        | (Some user, None) =>
            match generateJWT env (accounts.ID user) now issued with
            | (_, Some _) =>
                http_Error "Failed to generate token"
                           StatusInternalServerError
            | (tokenString, None) =>
                mkResponse StatusOK (TokenJSON tokenString)
            end
        end
  end.

(** [LogoutUser]; [authHeader] is [r.Header.Get("Authorization")]. *)
Definition LogoutUser (env : Env) (authHeader : string) (t : accounts.Tables)
  : Response * accounts.Tables :=
  if String.eqb authHeader "" then
    (http_Error "Authorization header is required" StatusUnauthorized, t)
  else if negb (HasPrefix authHeader "Bearer ") then
    (http_Error "Invalid token format" StatusUnauthorized, t)
  else
    let tokenString := TrimPrefix authHeader "Bearer " in
    match ParseUnverified env tokenString with
    | ParseError => (http_Error "Invalid token format" StatusUnauthorized, t)
    | NotMapClaims =>
        (http_Error "Invalid token claims" StatusUnauthorized, t)
    | NoExpiry =>
        (http_Error "Token expiration time not found" StatusUnauthorized, t)
    | Expiry expirationTime =>
        match accounts.RevokeToken tokenString expirationTime t with
        | (t', Some _) =>
            (http_Error "Failed to revoke token" StatusInternalServerError,
             t')
        | (t', None) =>
            (mkResponse StatusOK (Text "Logged out successfully"), t')
        end
    end.

(** [AuthMiddleware]: the response it writes itself, or the user id it
    puts in the context of the request it passes on. *)
Definition AuthMiddleware (env : Env) (authHeader : string)
  : Response + string :=
  if String.eqb authHeader "" then
    inl (http_Error "Authorization header is required" StatusUnauthorized)
  else
    let parts := Split authHeader " " in
    match parts with
    | [p0; tokenString] =>
        if negb (String.eqb p0 "Bearer") then
          inl (http_Error "Invalid Authorization header format"
                          StatusUnauthorized)
        else
          match ParseWithClaims env tokenString with
          | None =>
              inl (http_Error "Invalid or expired token" StatusUnauthorized)
          | Some userID => inr userID
          end
    | _ =>
        inl (http_Error "Invalid Authorization header format"
                        StatusUnauthorized)
    end.

End auth.

(* ================================================================== *)
(** ** Notions and sample data for accounts *)

(** The connection behind the account tables reports no error. *)
Definition sound (t : accounts.Tables) : Prop := accounts.trouble t = None.

Definition usernames (t : accounts.Tables) : list string :=
  map accounts.Username (accounts.users t).

Definition user_ids (t : accounts.Tables) : list string :=
  map accounts.ID (accounts.users t).

Definition no_space (s : string) : Prop := Contains s " " = false.

Definition tables_empty : accounts.Tables :=
  {| accounts.users := []; accounts.revoked_tokens := [];
     accounts.trouble := None |}.

(** A stand-in for bcrypt that refuses passwords over 72 bytes. *)
Definition toy_bcrypt : accounts.Bcrypt :=
  {| accounts.GenerateFromPassword := fun p =>
       if Nat.ltb 72 (String.length p)
       then accounts.HashError "bcrypt: password length exceeds 72 bytes"
       else accounts.Hashed ("$2a$" ++ p);
     accounts.CompareHashAndPassword := fun h p => String.eqb h ("$2a$" ++ p)
  |}.

(** A stand-in for the JWT library and the regular expression. *)
Definition toy_env : auth.Env :=
  {| auth.MatchString := fun s => Contains s "@";
     auth.bcrypt := toy_bcrypt;
     auth.SignedString := fun c => auth.SignedAs ("jwt." ++ auth.UserID c);
     auth.ParseWithClaims := fun tok =>
       if HasPrefix tok "jwt." then Some (drop 4 tok) else None;
     auth.ParseUnverified := fun tok =>
       if HasPrefix tok "jwt." then auth.Expiry 900 else auth.ParseError |}.

(* ================================================================== *)
(** ** Splitting and joining on commas *)

Section SplitJoin.

Lemma HasPrefix_empty (s : string) : HasPrefix s "" = true.
Proof. destruct s; reflexivity. Qed.

Lemma Index_comma_cons (c : ascii) (s : string) :
  Index (String c s) "," =
  if Ascii.eqb "," c then Some 0 else option_map S (Index s ",").
Proof.
  cbn [Index HasPrefix]. rewrite HasPrefix_empty, andb_true_r. reflexivity.
Qed.

Lemma genSplit_comma (s : string) :
  forall fuel, String.length s <= fuel -> genSplit fuel s "," = split_comma s.
Proof.
  induction s as [|c s IH]; intros fuel Hf.
  - destruct fuel; reflexivity.
  - destruct fuel as [|fuel]; [simpl in Hf; lia|].
    assert (Hs : String.length s <= fuel) by (simpl in Hf; lia).
    assert (Hs' : String.length s <= S fuel) by lia.
    pose proof (IH (S fuel) Hs') as IH1.
    cbn [genSplit split_comma]. rewrite Index_comma_cons.
    destruct (Ascii.eqb "," c) eqn:Ec.
    + cbn [take drop Nat.add String.length]. f_equal. apply IH, Hs.
    + rewrite <- IH1. cbn [genSplit].
      destruct (Index s ",") as [m|]; cbn [option_map].
      * cbn [take drop Nat.add String.length]. reflexivity.
      * reflexivity.
Qed.

Lemma Split_comma (s : string) : Split s "," = split_comma s.
Proof.
  unfold Split. apply genSplit_comma. lia.
Qed.

Lemma Contains_comma_cons (c : ascii) (s : string) :
  Contains (String c s) "," = Ascii.eqb "," c || Contains s ",".
Proof.
  unfold Contains. rewrite Index_comma_cons.
  destruct (Ascii.eqb "," c); [reflexivity|].
  destruct (Index s ","); reflexivity.
Qed.

Lemma no_comma_cons (c : ascii) (s : string) :
  no_comma (String c s) <-> Ascii.eqb "," c = false /\ no_comma s.
Proof.
  unfold no_comma. rewrite Contains_comma_cons. apply orb_false_iff.
Qed.

Lemma split_comma_not_nil (s : string) : split_comma s <> [].
Proof.
  induction s as [|c s IH]; cbn [split_comma]; [discriminate|].
  destruct (Ascii.eqb "," c); [discriminate|].
  destruct (split_comma s); discriminate.
Qed.

Lemma split_comma_whole (t : string) : no_comma t -> split_comma t = [t].
Proof.
  induction t as [|c t IH]; intros H; [reflexivity|].
  apply no_comma_cons in H. destruct H as [Hc Ht].
  cbn [split_comma]. rewrite Hc, (IH Ht). reflexivity.
Qed.

Lemma split_comma_first (t rest : string) :
  no_comma t -> split_comma (t ++ "," ++ rest) = t :: split_comma rest.
Proof.
  induction t as [|c t IH]; intros H.
  - reflexivity.
  - apply no_comma_cons in H. destruct H as [Hc Ht].
    change (String c t ++ "," ++ rest) with (String c (t ++ "," ++ rest)).
    cbn [split_comma]. rewrite Hc, (IH Ht). reflexivity.
Qed.

Lemma split_comma_parts (s : string) : Forall no_comma (split_comma s).
Proof.
  induction s as [|c s IH]; cbn [split_comma].
  - constructor; [reflexivity|constructor].
  - destruct (Ascii.eqb "," c) eqn:Ec.
    + constructor; [reflexivity|exact IH].
    + destruct (split_comma s) as [|h t].
      * constructor; [|constructor].
        apply no_comma_cons. split; [exact Ec|reflexivity].
      * inversion IH; subst. constructor; [|assumption].
        apply no_comma_cons. split; assumption.
Qed.

Lemma split_comma_Join (l : list string) :
  l <> [] -> Forall no_comma l -> split_comma (Join l ",") = l.
Proof.
  induction l as [|t l IH]; intros Hne Hl; [congruence|].
  inversion Hl as [|? ? Ht Hl']; subst.
  destruct l as [|t' l].
  - cbn [Join]. apply split_comma_whole, Ht.
  - change (Join (t :: t' :: l) ",") with (t ++ "," ++ Join (t' :: l) ",").
    rewrite (split_comma_first _ _ Ht). f_equal.
    apply IH; [discriminate|exact Hl'].
Qed.

(** Splitting the joined text gives the list back exactly when the list
    is non-empty and none of its elements contains a comma. *)
Lemma Split_Join_iff (l : list string) :
  Split (Join l ",") "," = l <-> l <> [] /\ Forall no_comma l.
Proof.
  rewrite Split_comma. split.
  - intros H. split.
    + intros ->. discriminate H.
    + rewrite <- H. apply split_comma_parts.
  - intros [Hne Hl]. apply split_comma_Join; assumption.
Qed.

Lemma Split_Join_nil : Split (Join [] ",") "," = [""].
Proof. reflexivity. Qed.

End SplitJoin.

(* ================================================================== *)
(** ** Statements of the store *)

Section Store.

Lemma with_articles_same (db : DB) : with_articles db (articles db) = db.
Proof. destruct db; reflexivity. Qed.

Lemma healthy_fails_at (db : DB) (st : Stage) :
  healthy db -> fails_at db st = None.
Proof. unfold healthy, fails_at. intros ->. reflexivity. Qed.

Lemma healthy_with_articles (db : DB) (rs : list Row) :
  healthy db -> healthy (with_articles db rs).
Proof. unfold healthy. intros H. exact H. Qed.

Lemma matches_spec (i u : string) (r : Row) :
  matches i u r = true <-> row_id r = i /\ row_user_id r = u.
Proof.
  unfold matches. rewrite andb_true_iff, !String.eqb_eq. reflexivity.
Qed.

Lemma update_where_none (i u : string) (f : Row -> Row) (rs : list Row) :
  (forall r, In r rs -> matches i u r = false) -> update_where i u f rs = rs.
Proof.
  unfold update_where. induction rs as [|r rs IH]; intros H; [reflexivity|].
  cbn [map]. rewrite (H r (or_introl eq_refl)). f_equal.
  apply IH. intros r' Hr'. apply H. right. exact Hr'.
Qed.

Lemma delete_where_none (i u : string) (rs : list Row) :
  (forall r, In r rs -> matches i u r = false) ->
  filter (fun r => negb (matches i u r)) rs = rs.
Proof.
  induction rs as [|r rs IH]; intros H; [reflexivity|].
  cbn [filter]. rewrite (H r (or_introl eq_refl)). cbn [negb]. f_equal.
  apply IH. intros r' Hr'. apply H. right. exact Hr'.
Qed.

Lemma rows_affected_none (i u : string) (rs : list Row) :
  (forall r, In r rs -> matches i u r = false) -> rows_affected i u rs = 0.
Proof.
  unfold rows_affected. induction rs as [|r rs IH]; intros H; [reflexivity|].
  cbn [filter]. rewrite (H r (or_introl eq_refl)).
  apply IH. intros r' Hr'. apply H. right. exact Hr'.
Qed.

Lemma find_none (i u : string) (rs : list Row) :
  (forall r, In r rs -> matches i u r = false) ->
  find (matches i u) rs = None.
Proof.
  induction rs as [|r rs IH]; intros H; [reflexivity|].
  cbn [find]. rewrite (H r (or_introl eq_refl)).
  apply IH. intros r' Hr'. apply H. right. exact Hr'.
Qed.

Lemma find_owned (i u : string) (rs : list Row) :
  (exists r, In r rs /\ matches i u r = true) ->
  exists r, find (matches i u) rs = Some r /\ In r rs /\ matches i u r = true.
Proof.
  induction rs as [|r rs IH]; intros [r0 [Hin Hm]]; [destruct Hin|].
  cbn [find]. destruct (matches i u r) eqn:E.
  - exists r. repeat split; [left; reflexivity|exact E].
  - destruct Hin as [->|Hin]; [congruence|].
    destruct IH as [r1 [Hf [Hin1 Hm1]]]; [exists r0; split; assumption|].
    exists r1. repeat split; [exact Hf|right; exact Hin1|exact Hm1].
Qed.

Lemma find_update_where (i u : string) (f : Row -> Row) (rs : list Row) :
  (forall r, row_id (f r) = row_id r /\ row_user_id (f r) = row_user_id r) ->
  find (matches i u) (update_where i u f rs)
  = option_map f (find (matches i u) rs).
Proof.
  intros Hf. unfold update_where.
  induction rs as [|r rs IH]; [reflexivity|].
  cbn [map find]. destruct (matches i u r) eqn:E.
  - assert (E' : matches i u (f r) = true).
    { unfold matches in *. destruct (Hf r) as [-> ->]. exact E. }
    rewrite E'. reflexivity.
  - rewrite E. exact IH.
Qed.

Lemma Contains_skip (a b p : string) :
  Contains b p = true -> Contains (a ++ b) p = true.
Proof.
  unfold Contains. intros H. induction a as [|c a IH]; [exact H|].
  change (String c a ++ b) with (String c (a ++ b)). cbn [Index].
  destruct (HasPrefix (String c (a ++ b)) p); [reflexivity|].
  destruct (Index (a ++ b) p); [reflexivity|discriminate IH].
Qed.

(** The handlers recognise the not-found error by its text. *)
Lemma not_found_is_recognised (i u : string) :
  Contains (not_found i u) "not found or not owned" = true.
Proof.
  unfold not_found. apply Contains_skip, Contains_skip. reflexivity.
Qed.

End Store.

Section Misses.

Lemma absent_unowned (i u : string) (db : DB) : absent i db -> unowned i u db.
Proof.
  intros H r Hr. unfold matches.
  destruct (String.eqb_spec (row_id r) i) as [E|E]; [|reflexivity].
  destruct (H r Hr E).
Qed.

Lemma UpdateArticleStatus_miss (i u st : string) (now : Time) (db : DB) :
  healthy db -> unowned i u db ->
  models.UpdateArticleStatus i u st now db = (db, Some (not_found i u)).
Proof.
  intros Hh Hu. unfold models.UpdateArticleStatus.
  rewrite !(healthy_fails_at db _ Hh).
  rewrite (update_where_none _ _ _ _ Hu), (rows_affected_none _ _ _ Hu).
  rewrite with_articles_same. reflexivity.
Qed.

Lemma UpdateArticleTags_miss (i u : string) (ts : list string) (now : Time)
    (db : DB) :
  healthy db -> unowned i u db ->
  models.UpdateArticleTags i u ts now db = (db, Some (not_found i u)).
Proof.
  intros Hh Hu. unfold models.UpdateArticleTags.
  rewrite !(healthy_fails_at db _ Hh).
  rewrite (update_where_none _ _ _ _ Hu), (rows_affected_none _ _ _ Hu).
  rewrite with_articles_same. reflexivity.
Qed.

Lemma DeleteArticle_miss (i u : string) (db : DB) :
  healthy db -> unowned i u db ->
  models.DeleteArticle i u db = (db, Some (not_found i u)).
Proof.
  intros Hh Hu. unfold models.DeleteArticle.
  rewrite !(healthy_fails_at db _ Hh).
  rewrite (delete_where_none _ _ _ Hu), (rows_affected_none _ _ _ Hu).
  rewrite with_articles_same. reflexivity.
Qed.

Lemma GetArticleByID_miss (i u : string) (db : DB) :
  healthy db -> unowned i u db -> GetArticleByID i u db = (None, None).
Proof.
  intros Hh Hu. unfold GetArticleByID.
  rewrite (healthy_fails_at db _ Hh), (find_none _ _ _ Hu). reflexivity.
Qed.

(** C4.  On a working connection, when no row has both the given id and
    the given owner (the id may well exist under another owner), each of
    [UpdateArticleStatus], [UpdateArticleTags] and [DeleteArticle]
    leaves the table as it is and returns the not-found error; the error
    is the very one returned on a table where the id does not occur at
    all. *)
Theorem mutation_miss_is_not_found
    (i u newStatus : string) (newTags : list string) (now : Time) (db : DB) :
  healthy db -> unowned i u db ->
  models.UpdateArticleStatus i u newStatus now db
    = (db, Some (not_found i u))
  /\ models.UpdateArticleTags i u newTags now db = (db, Some (not_found i u))
  /\ models.DeleteArticle i u db = (db, Some (not_found i u))
  /\ forall db0, healthy db0 -> absent i db0 ->
       snd (models.UpdateArticleStatus i u newStatus now db0)
         = snd (models.UpdateArticleStatus i u newStatus now db)
       /\ snd (models.UpdateArticleTags i u newTags now db0)
            = snd (models.UpdateArticleTags i u newTags now db)
       /\ snd (models.DeleteArticle i u db0)
            = snd (models.DeleteArticle i u db).
Proof.
  intros Hh Hu.
  repeat split;
    try (apply UpdateArticleStatus_miss; assumption);
    try (apply UpdateArticleTags_miss; assumption);
    try (apply DeleteArticle_miss; assumption);
    match goal with
    | Ha : absent i ?d |- _ => pose proof (absent_unowned i u d Ha) as Hu0
    end.
  - rewrite !UpdateArticleStatus_miss by assumption. reflexivity.
  - rewrite !UpdateArticleTags_miss by assumption. reflexivity.
  - rewrite !DeleteArticle_miss by assumption. reflexivity.
Qed.

(** Bob addresses Alice's article: the id exists, under another owner. *)
Lemma mutation_miss_is_not_found_witness :
  models.UpdateArticleStatus "id-1" "bob" "read" 30 db_alice
    = (db_alice, Some (not_found "id-1" "bob"))
  /\ models.UpdateArticleTags "id-1" "bob" ["x"] 30 db_alice
     = (db_alice, Some (not_found "id-1" "bob"))
  /\ models.DeleteArticle "id-1" "bob" db_alice
     = (db_alice, Some (not_found "id-1" "bob"))
  /\ forall db0, healthy db0 -> absent "id-1" db0 ->
       snd (models.UpdateArticleStatus "id-1" "bob" "read" 30 db0)
         = snd (models.UpdateArticleStatus "id-1" "bob" "read" 30 db_alice)
       /\ snd (models.UpdateArticleTags "id-1" "bob" ["x"] 30 db0)
            = snd (models.UpdateArticleTags "id-1" "bob" ["x"] 30 db_alice)
       /\ snd (models.DeleteArticle "id-1" "bob" db0)
            = snd (models.DeleteArticle "id-1" "bob" db_alice).
Proof.
  apply (mutation_miss_is_not_found "id-1" "bob" "read" ["x"] 30 db_alice).
  - reflexivity.
  - intros r [<-|[]]. reflexivity.
Defined.

(** C10.  On a working connection, when no row has both the given id
    and the given owner (absent id or another owner's article),
    [GetArticleByID] returns no article and no error, and [ReturnArticle]
    answers 404 "Article not found"; the mutations, on the same miss,
    do return an error. *)
Theorem read_miss_is_nil_nil (i u : string) (db : DB) :
  healthy db -> unowned i u db ->
  GetArticleByID i u db = (None, None)
  /\ (u <> "" -> i <> "" ->
      handlers.ReturnArticle (Some u) i db
        = handlers.http_Error "Article not found" handlers.StatusNotFound)
  /\ snd (models.DeleteArticle i u db) <> None.
Proof.
  intros Hh Hu. split; [|split].
  - apply GetArticleByID_miss; assumption.
  - intros Hne Hi. unfold handlers.ReturnArticle.
    apply String.eqb_neq in Hne. apply String.eqb_neq in Hi.
    rewrite Hne, Hi, GetArticleByID_miss by assumption. reflexivity.
  - rewrite DeleteArticle_miss by assumption. discriminate.
Qed.

Lemma read_miss_is_nil_nil_witness :
  GetArticleByID "id-1" "bob" db_alice = (None, None)
  /\ handlers.ReturnArticle (Some "bob") "id-1" db_alice
      = handlers.http_Error "Article not found" handlers.StatusNotFound
  /\ snd (models.DeleteArticle "id-1" "bob" db_alice) <> None.
Proof.
  destruct (read_miss_is_nil_nil "id-1" "bob" db_alice) as [H1 [H2 H3]].
  - reflexivity.
  - intros r [<-|[]]. reflexivity.
  - split; [exact H1|split; [apply H2; discriminate|exact H3]].
Defined.

End Misses.

(* ================================================================== *)
(** ** Statements of [Save] *)

Section SaveFacts.

Lemma Save_update (uuid : string) (now : Time) (a : Article) (db : DB) :
  ID a <> "" -> healthy db ->
  Save uuid now a db
  = (touch a now,
     with_articles db
       (update_where (ID a) (UserID a)
                     (set_all (touch a now) (Join (Tags a) ","))
                     (articles db)),
     None).
Proof.
  intros Hid Hh. unfold Save. apply String.eqb_neq in Hid. rewrite Hid.
  rewrite !(healthy_fails_at db _ Hh). reflexivity.
Qed.

Lemma Save_insert (uuid : string) (now : Time) (a : Article) (db : DB) :
  ID a = "" -> healthy db -> id_taken uuid (articles db) = false ->
  Save uuid now a db
  = (created a uuid now,
     with_articles db
       (articles db
          ++ [row_of_article (created a uuid now) (Join (Tags a) ",")])%list,
     None).
Proof.
  intros Hid Hh Hfree. unfold Save. rewrite Hid. cbn [String.eqb].
  rewrite !(healthy_fails_at db _ Hh), Hfree. reflexivity.
Qed.

(** [Save] never touches these fields of its receiver. *)
Lemma Save_receiver (uuid : string) (now : Time) (a : Article) (db : DB) :
  let a' := fst (fst (Save uuid now a db)) in
  UserID a' = UserID a /\ URL a' = URL a /\ Title a' = Title a
  /\ Summary a' = Summary a /\ Tags a' = Tags a /\ Status a' = Status a
  /\ (ID a <> "" -> ID a' = ID a).
Proof.
  unfold Save.
  destruct (String.eqb_spec (ID a) "") as [E|E];
    destruct (fails_at db AtPrepare); cbn;
      try (repeat split; congruence);
    destruct (fails_at db AtExec); cbn;
      try (repeat split; congruence);
    destruct (id_taken uuid (articles db)); cbn; repeat split; congruence.
Qed.

Lemma persisted_update_where (i u : string) (f : Row -> Row) (db : DB) :
  (forall r, row_id (f r) = row_id r /\ row_user_id (f r) = row_user_id r) ->
  persisted i u (with_articles db (update_where i u f (articles db)))
  = option_map f (persisted i u db).
Proof.
  intros Hf. unfold persisted. cbn [articles with_articles].
  apply find_update_where, Hf.
Qed.

(** What an updating [Save] leaves in the row it addresses. *)
Lemma Save_update_persisted (uuid : string) (now : Time) (a : Article)
    (db : DB) (r0 : Row) :
  ID a <> "" -> healthy db -> persisted (ID a) (UserID a) db = Some r0 ->
  persisted (ID a) (UserID a) (snd (fst (Save uuid now a db)))
  = Some (set_all (touch a now) (Join (Tags a) ",") r0).
Proof.
  intros Hid Hh Hp. rewrite (Save_update _ _ _ _ Hid Hh). cbn [fst snd].
  rewrite persisted_update_where by (intros r; split; reflexivity).
  rewrite Hp. reflexivity.
Qed.

End SaveFacts.

(* ================================================================== *)
(** ** Statements of the ingestion run *)

Section Pipeline.

Lemma extracted_inv (w : World) (a : Article) (resp : HTTPResponse)
    (doc : Document) :
  extracted w a = Some (resp, doc) ->
  exists body,
    http_Get w (URL a) = Some resp
    /\ Nat.eqb (StatusCode resp) services.StatusOK = true
    /\ Body resp = Some body
    /\ NewDocumentFromReader w body = Some doc.
Proof.
  unfold extracted. intros H.
  destruct (http_Get w (URL a)) as [fc|]; [|discriminate].
  destruct (Nat.eqb (StatusCode fc) services.StatusOK) eqn:Ec;
    cbn [negb] in H; [|discriminate].
  destruct (Body fc) as [body|] eqn:Eb; [|discriminate].
  destruct (NewDocumentFromReader w body) as [d|] eqn:Ed; [|discriminate].
  inversion H; subst. exists body. repeat split; assumption.
Qed.

(** Rewrites the run of an article whose document was extracted up to
    the point where the API key is read. *)
Ltac after_extraction H :=
  let body := fresh "body" in
  let Hg := fresh "Hget" in
  let Hc := fresh "Hcode" in
  let Hb := fresh "Hbody" in
  let Hd := fresh "Hdoc" in
  destruct (extracted_inv _ _ _ _ H) as [body [Hg [Hc [Hb Hd]]]];
  unfold ProcessNewArticle; rewrite Hg, Hc; cbn [negb]; rewrite Hb, Hd.

Ltac save_cases :=
  match goal with
  | |- context [Save ?u ?n ?a ?d] =>
      let a' := fresh "a'" in
      let db' := fresh "db'" in
      let e := fresh "e" in
      let ES := fresh "ES" in
      destruct (Save u n a d) as [[a' db'] e] eqn:ES
  end.

Lemma run_fetch_error (w : World) (a : Article) (db : DB) :
  http_Get w (URL a) = None ->
  ProcessNewArticle w a db
  = mkRun (fst (fst (Save (GenerateUUID w) (Now w) (set_Status a "failed") db)))
          (snd (fst (Save (GenerateUUID w) (Now w) (set_Status a "failed") db)))
          [EvGet (URL a); EvSave (set_Status a "failed")] false.
Proof.
  intros H. unfold ProcessNewArticle. rewrite H. save_cases. reflexivity.
Qed.

Lemma run_commit (w : World) (a : Article) (db : DB) (resp : HTTPResponse)
    (doc : Document) (s t : string) :
  extracted w a = Some (resp, doc) ->
  GEMINI_API_KEY w <> "" -> NewClient w (GEMINI_API_KEY w) = true ->
  summary_answer w doc = GenResponse s -> tags_answer w doc = GenResponse t ->
  let a1 := set_result (set_Title_URL a (title_or_url doc a) (RequestURL resp))
                       s (Split t ",") "unread" in
  ProcessNewArticle w a db
  = mkRun (fst (fst (Save (GenerateUUID w) (Now w) a1 db)))
          (snd (fst (Save (GenerateUUID w) (Now w) a1 db)))
          [EvGet (URL a); summary_call doc; tags_call doc; EvSave a1] false.
Proof.
  intros H Hk Hc Hs Ht a1. after_extraction H.
  apply String.eqb_neq in Hk. rewrite Hk, Hc. cbn [negb].
  unfold summary_answer in Hs. unfold tags_answer in Ht. rewrite Hs, Ht.
  fold (title_or_url doc a). fold a1. save_cases. reflexivity.
Qed.

(** Whatever the outside world answers, the run makes at most one store
    write and at most two generation calls, and it makes the write last. *)
Lemma run_shape (w : World) (a : Article) (db : DB) :
  let r := ProcessNewArticle w a db in
  enrichment_calls r <= 2 /\ store_writes r <= 1
  /\ (store_writes r = 0 -> store r = db).
Proof.
  unfold ProcessNewArticle, enrichment_calls, store_writes.
  destruct (http_Get w (URL a)) as [fc|].
  - destruct (negb (Nat.eqb (StatusCode fc) services.StatusOK));
      [cbn; repeat split; lia|].
    destruct (Body fc) as [body|]; [|cbn; repeat split; lia].
    destruct (NewDocumentFromReader w body) as [doc|];
      [|cbn; repeat split; lia].
    destruct (String.eqb (GEMINI_API_KEY w) ""); [cbn; repeat split; lia|].
    destruct (negb (NewClient w (GEMINI_API_KEY w)));
      [cbn; repeat split; lia|].
    destruct (GenerateContent w 0 _ _); try (cbn; repeat split; lia).
    destruct (GenerateContent w 1 _ _); try (cbn; repeat split; lia).
    save_cases. cbn. repeat split; lia.
  - save_cases. cbn. repeat split; lia.
Qed.

(** C1.  When [http.Get] returns an error the run sets the status to
    "failed" and calls [Save] once, on the article so marked, and makes
    no other outside call; title, summary and tags of the article are
    what they were.  On a working connection the row of an article that
    has an id then holds status "failed" together with the article's
    title, summary and joined tags, which for a freshly submitted
    article are the creation defaults. *)
Theorem fetch_error_marks_failed (w : World) (a : Article) (db : DB) :
  http_Get w (URL a) = None ->
  let r := ProcessNewArticle w a db in
  Status (article r) = "failed"
  /\ Title (article r) = Title a
  /\ Summary (article r) = Summary a
  /\ Tags (article r) = Tags a
  /\ trace r = [EvGet (URL a); EvSave (set_Status a "failed")]
  /\ (ID a <> "" -> healthy db ->
      forall r0, persisted (ID a) (UserID a) db = Some r0 ->
      exists r1, persisted (ID a) (UserID a) (store r) = Some r1
                 /\ row_status r1 = "failed"
                 /\ row_title r1 = Title a
                 /\ row_summary r1 = Summary a
                 /\ row_tags r1 = Join (Tags a) ","
                 /\ row_url r1 = URL a
                 /\ row_created_at r1 = row_created_at r0).
Proof.
  intros H r. subst r. rewrite (run_fetch_error _ _ _ H).
  cbn [article store trace].
  pose proof (Save_receiver (GenerateUUID w) (Now w)
                            (set_Status a "failed") db) as HS.
  cbn zeta in HS. destruct HS as [_ [_ [Ht [Hs [Hg [Hst _]]]]]].
  repeat split; try assumption.
  intros Hid Hh r0 Hp.
  rewrite (Save_update_persisted _ _ (set_Status a "failed") db r0 Hid Hh Hp).
  eexists. split; [reflexivity|]. repeat split.
Qed.

(** Alice's fresh submission, host unreachable. *)
Lemma fetch_error_marks_failed_witness :
  let r := ProcessNewArticle world_down article_alice db_alice in
  Status (article r) = "failed"
  /\ Title (article r) = ""
  /\ Summary (article r) = ""
  /\ Tags (article r) = []
  /\ trace r = [EvGet "http://x.test/a";
                EvSave (set_Status article_alice "failed")]
  /\ exists r1, persisted "id-1" "alice" (store r) = Some r1
                /\ row_status r1 = "failed"
                /\ row_title r1 = ""
                /\ row_summary r1 = ""
                /\ row_tags r1 = ""
                /\ row_url r1 = "http://x.test/a"
                /\ row_created_at r1 = 10.
Proof.
  destruct (fetch_error_marks_failed world_down article_alice db_alice
              eq_refl) as [H1 [H2 [H3 [H4 [H5 H6]]]]].
  split; [exact H1|]. split; [exact H2|]. split; [exact H3|].
  split; [exact H4|]. split; [exact H5|].
  apply (H6 ltac:(discriminate) eq_refl row_alice eq_refl).
Defined.

(** C2.  When the fetch returns a response whose status code is not
    200 (every non-success code is such a code) the run stops right
    after the fetch: no [Save], the store and the article are what they
    were, so a row in status "processing" stays in it. *)
Theorem bad_status_leaves_store_untouched
    (w : World) (a : Article) (db : DB) (resp : HTTPResponse) :
  http_Get w (URL a) = Some resp ->
  StatusCode resp <> services.StatusOK ->
  let r := ProcessNewArticle w a db in
  store r = db /\ article r = a /\ trace r = [EvGet (URL a)]
  /\ store_writes r = 0
  /\ forall i u, option_map row_status (persisted i u (store r))
                 = option_map row_status (persisted i u db).
Proof.
  intros Hg Hc r. subst r. unfold ProcessNewArticle. rewrite Hg.
  apply Nat.eqb_neq in Hc. rewrite Hc. cbn [negb].
  repeat split.
Qed.

(** Alice's fresh submission, the page answering 503. *)
Lemma bad_status_leaves_store_untouched_witness :
  let r := ProcessNewArticle (world_page 503 "T" GenNil GenNil)
                             article_alice db_alice in
  store r = db_alice /\ article r = article_alice
  /\ trace r = [EvGet "http://x.test/a"]
  /\ store_writes r = 0
  /\ forall i u, option_map row_status (persisted i u (store r))
                 = option_map row_status (persisted i u db_alice).
Proof.
  apply (bad_status_leaves_store_untouched
           (world_page 503 "T" GenNil GenNil) article_alice db_alice
           {| StatusCode := 503; Body := Some "<html>";
              RequestURL := "http://x.test/a" |}).
  - reflexivity.
  - discriminate.
Defined.

(** C5 as stated fails: a run whose extraction succeeds and whose
    summary request errors makes one generation call, not two. *)
Lemma two_calls_per_extraction_counterexample :
  let w := world_page 200 "T" (GenError "quota") GenNil in
  let r := ProcessNewArticle w article_alice db_alice in
  extracted w article_alice <> None
  /\ enrichment_calls r = 1
  /\ enrichment_calls r <> 2.
Proof.
  cbn. repeat split; discriminate.
Qed.

(** C5, amended.  No run makes more than two generation calls; a run
    whose extraction succeeds, whose API key is set, whose client is
    created and whose summary request returns a response makes exactly
    two, the summary request and then the tags request. *)
Theorem enrichment_calls_bounded (w : World) (a : Article) (db : DB) :
  let r := ProcessNewArticle w a db in
  enrichment_calls r <= 2
  /\ forall resp doc s,
       extracted w a = Some (resp, doc) ->
       GEMINI_API_KEY w <> "" -> NewClient w (GEMINI_API_KEY w) = true ->
       summary_answer w doc = GenResponse s ->
       filter is_generate (trace r) = [summary_call doc; tags_call doc]
       /\ enrichment_calls r = 2.
Proof.
  intros r. split; [apply (run_shape w a db)|].
  intros resp doc s H Hk Hc Hs. subst r. unfold enrichment_calls.
  after_extraction H.
  apply String.eqb_neq in Hk. rewrite Hk, Hc. cbn [negb].
  unfold summary_answer in Hs. rewrite Hs.
  destruct (GenerateContent w 1 _ _); try (split; reflexivity).
  save_cases. split; reflexivity.
Qed.

Lemma enrichment_calls_bounded_witness :
  let r := ProcessNewArticle
             (world_page 200 "T" (GenResponse "S") (GenResponse "t1,t2"))
             article_alice db_alice in
  enrichment_calls r <= 2
  /\ filter is_generate (trace r)
     = [EvGenerate "gemini-2.5-flash" "Summarize the following article: B";
        EvGenerate "gemini-2.5-flash"
          "Generate a comma-separated list of tags for the following article: B"]
  /\ enrichment_calls r = 2.
Proof.
  destruct (enrichment_calls_bounded
              (world_page 200 "T" (GenResponse "S") (GenResponse "t1,t2"))
              article_alice db_alice) as [H1 H2].
  split; [exact H1|].
  apply (H2 {| StatusCode := 200; Body := Some "<html>";
               RequestURL := "http://x.test/a" |}
            {| title_Text := "T"; body_Text := "B" |} "S").
  - reflexivity.
  - discriminate.
  - reflexivity.
  - reflexivity.
Defined.

(** C6 as stated fails: a summary request that returns a response whose
    text is empty has returned an empty result, yet the run goes on to
    its [Save] and the row leaves "processing" for "unread", with the
    empty summary. *)
Lemma empty_result_counterexample :
  let w := world_page 200 "T" (GenResponse "") (GenResponse "t1,t2") in
  let r := ProcessNewArticle w article_alice db_alice in
  option_map (fun rd => summary_answer w (snd rd)) (extracted w article_alice)
    = Some (GenResponse "")
  /\ store_writes r = 1
  /\ option_map row_status (persisted "id-1" "alice" db_alice)
     = Some "processing"
  /\ option_map row_status (persisted "id-1" "alice" (store r))
     = Some "unread"
  /\ option_map row_summary (persisted "id-1" "alice" (store r)) = Some "".
Proof. repeat split. Qed.

(** C6, amended.  When the summary request or the tags request returns
    an error, or no response at all (nil), the run ends without calling
    [Save]: the store, and with it the status of every row, is what it
    was.  The text of a response is not looked at. *)
Theorem failed_enrichment_writes_nothing
    (w : World) (a : Article) (db : DB) (resp : HTTPResponse)
    (doc : Document) :
  extracted w a = Some (resp, doc) ->
  gen_failed (summary_answer w doc) \/ gen_failed (tags_answer w doc) ->
  let r := ProcessNewArticle w a db in
  store r = db /\ store_writes r = 0
  /\ forall i u, option_map row_status (persisted i u (store r))
                 = option_map row_status (persisted i u db).
Proof.
  intros H Hf r.
  assert (Hw : store_writes r = 0).
  { subst r. unfold store_writes. after_extraction H.
    destruct (String.eqb (GEMINI_API_KEY w) ""); [reflexivity|].
    destruct (negb (NewClient w (GEMINI_API_KEY w))); [reflexivity|].
    unfold summary_answer, tags_answer in Hf.
    destruct (GenerateContent w 0 _ _); try reflexivity.
    destruct (GenerateContent w 1 _ _); try reflexivity.
    destruct Hf as [[]|[]]. }
  assert (Hs : store r = db) by (apply (run_shape w a db); exact Hw).
  split; [exact Hs|]. split; [exact Hw|]. intros i u. rewrite Hs. reflexivity.
Qed.

(** The tags request returning an error after a good summary. *)
Lemma failed_enrichment_writes_nothing_witness :
  let r := ProcessNewArticle
             (world_page 200 "T" (GenResponse "S") (GenError "quota"))
             article_alice db_alice in
  store r = db_alice /\ store_writes r = 0
  /\ forall i u, option_map row_status (persisted i u (store r))
                 = option_map row_status (persisted i u db_alice).
Proof.
  apply (failed_enrichment_writes_nothing
           (world_page 200 "T" (GenResponse "S") (GenError "quota"))
           article_alice db_alice
           {| StatusCode := 200; Body := Some "<html>";
              RequestURL := "http://x.test/a" |}
           {| title_Text := "T"; body_Text := "B" |}).
  - reflexivity.
  - right. exact I.
Defined.

(** C7 as stated fails: a title made of white space is empty after
    trimming, yet it is what the run stores, not the submitted URL. *)
Lemma blank_title_counterexample :
  let w := world_page 200 " " (GenResponse "S") (GenResponse "t1,t2") in
  let r := ProcessNewArticle w article_alice db_alice in
  option_map (fun rd => title_Text (snd rd)) (extracted w article_alice)
    = Some " "
  /\ TrimSpace " " = ""
  /\ option_map row_title (persisted "id-1" "alice" (store r)) = Some " "
  /\ Title (article r) = " "
  /\ " " <> URL article_alice.
Proof.
  cbn. repeat split; discriminate.
Qed.

(** C7, amended.  Once a document is extracted the run sets the title
    to the submitted URL when the extracted title is the empty string,
    nothing being trimmed, and to the extracted title as it is
    otherwise; every [Save] of the run carries that title, and when
    both generation calls answer, on a working connection, the row of
    an article that has an id holds it. *)
Theorem title_falls_back_to_url
    (w : World) (a : Article) (db : DB) (resp : HTTPResponse)
    (doc : Document) :
  extracted w a = Some (resp, doc) ->
  let r := ProcessNewArticle w a db in
  Title (article r) = title_or_url doc a
  /\ (forall x, In (EvSave x) (trace r) -> Title x = title_or_url doc a)
  /\ (forall s t r0,
        GEMINI_API_KEY w <> "" -> NewClient w (GEMINI_API_KEY w) = true ->
        summary_answer w doc = GenResponse s ->
        tags_answer w doc = GenResponse t ->
        ID a <> "" -> healthy db ->
        persisted (ID a) (UserID a) db = Some r0 ->
        option_map row_title (persisted (ID a) (UserID a) (store r))
          = Some (title_or_url doc a)).
Proof.
  intros H r. split; [|split].
  - subst r. after_extraction H. fold (title_or_url doc a).
    destruct (String.eqb (GEMINI_API_KEY w) ""); [reflexivity|].
    destruct (negb (NewClient w (GEMINI_API_KEY w))); [reflexivity|].
    destruct (GenerateContent w 0 _ _); try reflexivity.
    destruct (GenerateContent w 1 _ _); try reflexivity.
    match goal with
    | |- context [Save ?u ?n ?x ?d] =>
        pose proof (Save_receiver u n x d) as HS;
        destruct (Save u n x d) as [[a' db'] e]
    end.
    cbn in HS. cbn. apply HS.
  - intros x Hx. subst r. revert Hx. after_extraction H.
    fold (title_or_url doc a).
    destruct (String.eqb (GEMINI_API_KEY w) "");
      [cbn; intros [E|[]]; discriminate E|].
    destruct (negb (NewClient w (GEMINI_API_KEY w)));
      [cbn; intros [E|[]]; discriminate E|].
    destruct (GenerateContent w 0 _ _);
      try (cbn; intros [E|[E|[]]]; discriminate E).
    destruct (GenerateContent w 1 _ _);
      try (cbn; intros [E|[E|[E|[]]]]; discriminate E).
    save_cases. cbn. intros [E|[E|[E|[E|[]]]]]; try discriminate E.
    inversion E. reflexivity.
  - intros s t r0 Hk Hc Hs Ht Hid Hh Hp. subst r.
    rewrite (run_commit _ _ _ _ _ _ _ H Hk Hc Hs Ht). cbn [store].
    match goal with
    | |- context [Save ?u ?n ?x ?d] =>
        pose proof (Save_update_persisted u n x d r0 Hid Hh Hp) as HP
    end.
    cbn [ID UserID set_result set_Title_URL] in HP. rewrite HP.
    reflexivity.
Qed.

(** A page without a title: the row gets the submitted URL. *)
Lemma title_falls_back_to_url_witness :
  let r := ProcessNewArticle
             (world_page 200 "" (GenResponse "S") (GenResponse "t1,t2"))
             article_alice db_alice in
  Title (article r) = "http://x.test/a"
  /\ (forall x, In (EvSave x) (trace r) -> Title x = "http://x.test/a")
  /\ option_map row_title (persisted "id-1" "alice" (store r))
     = Some "http://x.test/a".
Proof.
  destruct (title_falls_back_to_url
              (world_page 200 "" (GenResponse "S") (GenResponse "t1,t2"))
              article_alice db_alice
              {| StatusCode := 200; Body := Some "<html>";
                 RequestURL := "http://x.test/a" |}
              {| title_Text := ""; body_Text := "B" |} eq_refl)
    as [H1 [H2 H3]].
  split; [exact H1|]. split; [exact H2|].
  apply (H3 "S" "t1,t2" row_alice); try reflexivity; discriminate.
Defined.

(** C8.  When the tags request answers with the text "a, b,c" (the
    summary request having answered too) the article's tags become
    ["a"; " b"; "c"], cut at the commas with nothing trimmed or removed;
    the row holds the same text, and reading the article back gives the
    same list. *)
Theorem tags_are_split_untrimmed
    (w : World) (a : Article) (db : DB) (resp : HTTPResponse)
    (doc : Document) (s : string) :
  extracted w a = Some (resp, doc) ->
  GEMINI_API_KEY w <> "" -> NewClient w (GEMINI_API_KEY w) = true ->
  summary_answer w doc = GenResponse s ->
  tags_answer w doc = GenResponse "a, b,c" ->
  let r := ProcessNewArticle w a db in
  Tags (article r) = ["a"; " b"; "c"]
  /\ (exists x, In (EvSave x) (trace r) /\ Tags x = ["a"; " b"; "c"])
  /\ (ID a <> "" -> healthy db ->
      forall r0, persisted (ID a) (UserID a) db = Some r0 ->
      option_map row_tags (persisted (ID a) (UserID a) (store r))
        = Some "a, b,c"
      /\ exists stored,
           GetArticleByID (ID a) (UserID a) (store r) = (Some stored, None)
           /\ Tags stored = ["a"; " b"; "c"]).
Proof.
  intros H Hk Hc Hs Ht r. subst r.
  rewrite (run_commit _ _ _ _ _ _ _ H Hk Hc Hs Ht). cbn [article store trace].
  split; [|split].
  - match goal with
    | |- context [Save ?u ?n ?x ?d] =>
        pose proof (Save_receiver u n x d) as HS
    end.
    cbn zeta in HS. destruct HS as [_ [_ [_ [_ [Hg _]]]]].
    rewrite Hg. reflexivity.
  - eexists. split; [right; right; right; left; reflexivity|reflexivity].
  - intros Hid Hh r0 Hp.
    match goal with
    | |- context [Save ?u ?n ?x ?d] =>
        pose proof (Save_update_persisted u n x d r0 Hid Hh Hp) as HP;
        pose proof (Save_update u n x d Hid Hh) as HU
    end.
    cbn [ID UserID set_result set_Title_URL] in HP.
    split; [rewrite HP; reflexivity|].
    unfold GetArticleByID.
    unfold persisted in HP. rewrite HU in *. cbn [fst snd] in *.
    rewrite (healthy_fails_at _ AtQuery (healthy_with_articles db _ Hh)).
    cbn [ID UserID set_result set_Title_URL touch] in *.
    rewrite HP.
    rewrite (healthy_fails_at _ AtScan (healthy_with_articles db _ Hh)).
    eexists. split; reflexivity.
Qed.

Lemma tags_are_split_untrimmed_witness :
  let r := ProcessNewArticle
             (world_page 200 "T" (GenResponse "S") (GenResponse "a, b,c"))
             article_alice db_alice in
  Tags (article r) = ["a"; " b"; "c"]
  /\ (exists x, In (EvSave x) (trace r) /\ Tags x = ["a"; " b"; "c"])
  /\ option_map row_tags (persisted "id-1" "alice" (store r)) = Some "a, b,c"
  /\ exists stored,
       GetArticleByID "id-1" "alice" (store r) = (Some stored, None)
       /\ Tags stored = ["a"; " b"; "c"].
Proof.
  destruct (tags_are_split_untrimmed
              (world_page 200 "T" (GenResponse "S") (GenResponse "a, b,c"))
              article_alice db_alice
              {| StatusCode := 200; Body := Some "<html>";
                 RequestURL := "http://x.test/a" |}
              {| title_Text := "T"; body_Text := "B" |} "S"
              eq_refl ltac:(discriminate) eq_refl eq_refl eq_refl)
    as [H1 [H2 H3]].
  split; [exact H1|]. split; [exact H2|].
  apply (H3 ltac:(discriminate) eq_refl row_alice eq_refl).
Defined.

(** The sample article and table are what [SubmitArticle] creates, and
    a run in which everything answers commits title, summary, tags and
    the status "unread". *)
Example submit_then_process :
  handlers.SubmitArticle (Some "alice") (Some "http://x.test/a") "id-1" 10
                         db_empty
  = (handlers.mkResponse handlers.StatusCreated
                         (handlers.LaunchedArticleJSON article_alice),
     db_alice, Some article_alice)
  /\ GetArticleByID "id-1" "alice"
       (store (ProcessNewArticle
                 (world_page 200 "T" (GenResponse "S") (GenResponse "t1,t2"))
                 article_alice db_alice))
     = (Some {| ID := "id-1"; UserID := "alice"; URL := "http://x.test/a";
                Title := "T"; Summary := "S"; Tags := ["t1"; "t2"];
                Status := "unread"; CreatedAt := 10; UpdatedAt := 20 |},
        None).
Proof. split; reflexivity. Qed.

End Pipeline.

(* ================================================================== *)
(** ** Reading back what was saved *)

Section ReadBack.

Lemma GetArticleByID_hit (i u : string) (db : DB) (r : Row) :
  healthy db -> persisted i u db = Some r ->
  GetArticleByID i u db = (Some (article_of_row r), None).
Proof.
  intros Hh Hp. unfold GetArticleByID. unfold persisted in Hp.
  rewrite !(healthy_fails_at db _ Hh), Hp. reflexivity.
Qed.

Lemma GetArticlesByUserID_all (u : string) (db : DB) :
  healthy db ->
  GetArticlesByUserID u "" "" db
  = (map article_of_row (filter (selected u "") (articles db)), None).
Proof.
  intros Hh. unfold GetArticlesByUserID. cbn [String.eqb].
  rewrite !(healthy_fails_at db _ Hh).
  destruct (filter (selected u "") (articles db)); reflexivity.
Qed.

Lemma GetArticlesByUserID_lists (i u : string) (db : DB) (r : Row) :
  healthy db -> persisted i u db = Some r ->
  In (article_of_row r) (fst (GetArticlesByUserID u "" "" db))
  /\ snd (GetArticlesByUserID u "" "" db) = None.
Proof.
  intros Hh Hp. rewrite (GetArticlesByUserID_all u db Hh). cbn [fst snd].
  split; [|reflexivity].
  unfold persisted in Hp. apply List.find_some in Hp. destruct Hp as [Hin Hm].
  apply in_map, filter_In. split; [exact Hin|].
  apply matches_spec in Hm. destruct Hm as [_ Hu].
  unfold selected. cbn [String.eqb]. rewrite Hu, String.eqb_refl. reflexivity.
Qed.

Lemma persisted_insert (i u : string) (db : DB) (r : Row) :
  id_taken i (articles db) = false -> matches i u r = true ->
  persisted i u (with_articles db (articles db ++ [r])%list) = Some r.
Proof.
  intros Hfree Hm. unfold persisted. cbn [articles with_articles].
  induction (articles db) as [|r' rs IH].
  - cbn [app find]. rewrite Hm. reflexivity.
  - cbn [id_taken existsb] in Hfree. apply orb_false_iff in Hfree.
    destruct Hfree as [Hr' Hrs]. cbn [app find].
    unfold matches at 1. rewrite Hr'. cbn [andb]. apply IH, Hrs.
Qed.

(** The row that [Save] leaves for its receiver, whichever branch it
    takes, holds the receiver's joined tags. *)
Lemma Save_persisted_tags (uuid : string) (now : Time) (a : Article)
    (db : DB) :
  healthy db ->
  (ID a = "" /\ id_taken uuid (articles db) = false)
  \/ (ID a <> "" /\ owned (ID a) (UserID a) db) ->
  let a' := fst (fst (Save uuid now a db)) in
  let db' := snd (fst (Save uuid now a db)) in
  snd (Save uuid now a db) = None /\ healthy db'
  /\ exists r, persisted (ID a') (UserID a') db' = Some r
               /\ row_tags r = Join (Tags a) ",".
Proof.
  intros Hh [[Hid Hfree]|[Hid Ho]].
  - rewrite (Save_insert _ _ _ _ Hid Hh Hfree). cbn [fst snd created ID UserID].
    split; [reflexivity|]. split; [exact Hh|].
    exists (row_of_article (created a uuid now) (Join (Tags a) ",")).
    split; [|reflexivity].
    apply persisted_insert; [exact Hfree|].
    unfold matches. cbn. rewrite !String.eqb_refl. reflexivity.
  - rewrite (Save_update _ _ _ _ Hid Hh). cbn [fst snd touch ID UserID].
    split; [reflexivity|]. split; [exact Hh|].
    destruct (find_owned _ _ _ Ho) as [r0 [Hf _]].
    rewrite persisted_update_where by (intros r; split; reflexivity).
    unfold persisted. rewrite Hf. cbn [option_map].
    eexists. split; reflexivity.
Qed.

(** C9.  An article saved with no tags, by insertion or by update, on a
    working connection, reads back through [GetArticleByID] and through
    [GetArticlesByUserID] with the one-element tag list [""]; in
    general splitting the joined tags gives the list back exactly when
    the list is non-empty and no tag contains a comma. *)
Theorem tags_round_trip :
  (forall uuid now a db,
     Tags a = [] -> healthy db ->
     (ID a = "" /\ id_taken uuid (articles db) = false)
     \/ (ID a <> "" /\ owned (ID a) (UserID a) db) ->
     let a' := fst (fst (Save uuid now a db)) in
     let db' := snd (fst (Save uuid now a db)) in
     snd (Save uuid now a db) = None
     /\ exists stored,
          GetArticleByID (ID a') (UserID a') db' = (Some stored, None)
          /\ In stored (fst (GetArticlesByUserID (UserID a') "" "" db'))
          /\ snd (GetArticlesByUserID (UserID a') "" "" db') = None
          /\ Tags stored = [""])
  /\ (forall l, Split (Join l ",") "," = l <-> l <> [] /\ Forall no_comma l).
Proof.
  split; [|exact Split_Join_iff].
  intros uuid now a db Ht Hh Hc a' db'.
  destruct (Save_persisted_tags uuid now a db Hh Hc) as [He [Hh' [r [Hp Hr]]]].
  fold a' db' in He, Hh', Hp. split; [exact He|].
  exists (article_of_row r).
  split; [apply GetArticleByID_hit; assumption|].
  destruct (GetArticlesByUserID_lists _ _ _ _ Hh' Hp) as [Hin Hn].
  split; [exact Hin|]. split; [exact Hn|].
  cbn [article_of_row Tags]. rewrite Hr, Ht. reflexivity.
Qed.

(** Alice's submission is inserted without tags and read back. *)
Lemma tags_round_trip_witness :
  (let a0 := {| ID := ""; UserID := "alice"; URL := "http://x.test/a";
                Title := ""; Summary := ""; Tags := [];
                Status := "processing"; CreatedAt := 0; UpdatedAt := 0 |} in
   let a' := fst (fst (Save "id-1" 10 a0 db_empty)) in
   let db' := snd (fst (Save "id-1" 10 a0 db_empty)) in
   snd (Save "id-1" 10 a0 db_empty) = None
   /\ exists stored,
        GetArticleByID (ID a') (UserID a') db' = (Some stored, None)
        /\ In stored (fst (GetArticlesByUserID (UserID a') "" "" db'))
        /\ snd (GetArticlesByUserID (UserID a') "" "" db') = None
        /\ Tags stored = [""])
  /\ (Split (Join ["x"; "y z"] ",") "," = ["x"; "y z"]).
Proof.
  destruct tags_round_trip as [H1 H2]. split.
  - apply H1; [reflexivity|reflexivity|left; split; reflexivity].
  - apply H2. split; [discriminate|].
    repeat constructor.
Defined.

End ReadBack.

(* ================================================================== *)
(** ** What no operation changes *)

Section Invariant.

Lemma id_taken_false (i : string) (rs : list Row) :
  id_taken i rs = false -> ~ In i (map row_id rs).
Proof.
  induction rs as [|r rs IH]; intros H Hin; [exact Hin|].
  cbn [id_taken existsb] in H. apply orb_false_iff in H. destruct H as [Hr Hrs].
  destruct Hin as [E|Hin].
  - apply String.eqb_neq in Hr. exact (Hr E).
  - exact (IH Hrs Hin).
Qed.














Lemma update_where_keys (i u : string) (f : Row -> Row) (db : DB) :
  (forall r, row_id (f r) = row_id r /\ row_user_id (f r) = row_user_id r) ->
  keys (with_articles db (update_where i u f (articles db))) = keys db.
Proof.
  intros Hf. unfold keys, update_where. cbn [articles with_articles].
  rewrite map_map. apply map_ext. intros r.
  destruct (matches i u r); [|reflexivity].
  destruct (Hf r) as [-> ->]. reflexivity.
Qed.

Lemma Save_update_keys (uuid : string) (now : Time) (a : Article) (db : DB) :
  ID a <> "" -> keys (snd (fst (Save uuid now a db))) = keys db.
Proof.
  intros Hid. unfold Save. apply String.eqb_neq in Hid. rewrite Hid.
  destruct (fails_at db AtPrepare); [reflexivity|].
  destruct (fails_at db AtExec); [reflexivity|].
  cbn [fst snd]. apply update_where_keys. intros r. split; reflexivity.
Qed.







(** The store function itself writes whatever status it is given; it is
    the handler's check of the requested status that keeps "processing"
    out. *)
Remark status_guard_is_in_the_handler :
  let db := {| articles := [set_status "read" 15 row_alice];
               fault := None; like_query := no_like_rows |} in
  option_map row_status
    (persisted "id-1" "alice"
       (fst (models.UpdateArticleStatus "id-1" "alice" "processing" 30 db)))
    = Some "processing"
  /\ handlers.UpdateArticleStatus (Some "alice") "id-1" (Some "processing")
                                  30 db
     = (handlers.http_Error
          "Status must be 'processing', 'read' or 'unread'"
          handlers.StatusBadRequest, db).
Proof. split; reflexivity. Qed.

End Invariant.

(* ================================================================== *)
(** ** Joining what was split *)

Section JoinSplit.

Lemma Join_cons_cons (e e' : string) (l : list string) (sep : string) :
  Join (e :: e' :: l) sep = e ++ sep ++ Join (e' :: l) sep.
Proof. reflexivity. Qed.

Lemma Join_split_comma (s : string) : Join (split_comma s) "," = s.
Proof.
  induction s as [|c s IH]; [reflexivity|].
  cbn [split_comma]. destruct (Ascii.eqb_spec "," c) as [E|E].
  - subst c. pose proof (split_comma_not_nil s) as Hne.
    destruct (split_comma s) as [|h t]; [congruence|].
    rewrite Join_cons_cons, IH. reflexivity.
  - pose proof (split_comma_not_nil s) as Hne.
    destruct (split_comma s) as [|h t]; [congruence|].
    destruct t as [|h' t].
    + cbn [Join] in *. rewrite IH. reflexivity.
    + rewrite Join_cons_cons in *. rewrite <- IH. reflexivity.
Qed.

Lemma Split_comma_facts (s : string) :
  Join (Split s ",") "," = s
  /\ Split s "," <> []
  /\ Forall no_comma (Split s ",").
Proof.
  rewrite Split_comma. split; [apply Join_split_comma|].
  split; [apply split_comma_not_nil|apply split_comma_parts].
Qed.

(** X1.  Joining on commas what [Split] cut at commas gives the text
    back, whatever the text: the tags column survives being read into
    an article and written out again.  The list read is never empty and
    none of its elements contains a comma. *)
Theorem Join_Split_comma (s : string) :
  Join (Split s ",") "," = s
  /\ Split s "," <> []
  /\ Forall no_comma (Split s ",").
Proof.
  rewrite Split_comma. split; [apply Join_split_comma|].
  split; [apply split_comma_not_nil|apply split_comma_parts].
Qed.

End JoinSplit.

(* ================================================================== *)
(** ** How the statements of the store compose *)

Section StoreComposition.

Lemma persisted_matches (i u : string) (db : DB) (r : Row) :
  persisted i u db = Some r ->
  In r (articles db) /\ row_id r = i /\ row_user_id r = u.
Proof.
  unfold persisted. intros H. apply List.find_some in H.
  destruct H as [Hin Hm]. apply matches_spec in Hm. tauto.
Qed.

Lemma persisted_rows_affected (i u : string) (db : DB) (r : Row) :
  persisted i u db = Some r ->
  Nat.eqb (rows_affected i u (articles db)) 0 = false.
Proof.
  unfold persisted, rows_affected.
  induction (articles db) as [|x rs IH]; [discriminate|].
  cbn [find filter]. destruct (matches i u x); [reflexivity|exact IH].
Qed.

Lemma persisted_deleted (i u : string) (db : DB) :
  persisted i u
    (with_articles db (filter (fun r => negb (matches i u r)) (articles db)))
  = None.
Proof.
  unfold persisted. cbn [articles with_articles].
  apply find_none. intros r Hr. apply filter_In in Hr.
  destruct Hr as [_ Hr]. apply negb_true_iff in Hr. exact Hr.
Qed.

Lemma others_update_where (i u : string) (f : Row -> Row) (db : DB) :
  (forall r, row_id (f r) = row_id r /\ row_user_id (f r) = row_user_id r) ->
  others i u (with_articles db (update_where i u f (articles db)))
  = others i u db.
Proof.
  intros Hf. unfold others, update_where. cbn [articles with_articles].
  induction (articles db) as [|x rs IH]; [reflexivity|].
  cbn [map filter]. destruct (matches i u x) eqn:E.
  - assert (E' : matches i u (f x) = true).
    { unfold matches in *. destruct (Hf x) as [-> ->]. exact E. }
    rewrite E'. cbn [negb]. exact IH.
  - rewrite E. cbn [negb]. f_equal. exact IH.
Qed.

Lemma others_deleted (i u : string) (db : DB) :
  others i u
    (with_articles db (filter (fun r => negb (matches i u r)) (articles db)))
  = others i u db.
Proof.
  unfold others. cbn [articles with_articles].
  induction (articles db) as [|x rs IH]; [reflexivity|].
  cbn [filter]. destruct (matches i u x) eqn:E; cbn [negb filter].
  - exact IH.
  - rewrite E. cbn [negb]. f_equal. exact IH.
Qed.

Lemma others_unowned (i u : string) (db : DB) :
  unowned i u db -> others i u db = articles db.
Proof.
  intros H. unfold others. apply delete_where_none. exact H.
Qed.

(** X2.  A statement addressed to an id and an owner leaves every other
    row exactly as it was and where it was: this holds for
    [UpdateArticleStatus], [UpdateArticleTags] and [DeleteArticle] with
    any arguments and any state of the connection, and for [Save] of an
    article that has an id. *)
Theorem mutations_leave_other_rows
    (i u st : string) (ts : list string) (now : Time) (db : DB) :
  others i u (fst (models.UpdateArticleStatus i u st now db)) = others i u db
  /\ others i u (fst (models.UpdateArticleTags i u ts now db)) = others i u db
  /\ others i u (fst (models.DeleteArticle i u db)) = others i u db
  /\ forall uuid a,
       ID a <> "" ->
       others (ID a) (UserID a) (snd (fst (Save uuid now a db)))
       = others (ID a) (UserID a) db.
Proof.
  split; [|split; [|split]].
  - unfold models.UpdateArticleStatus.
    destruct (fails_at db AtPrepare); [reflexivity|].
    destruct (fails_at db AtExec); [reflexivity|].
    assert (H : others i u (with_articles db
                  (update_where i u (set_status st now) (articles db)))
                = others i u db)
      by (apply others_update_where; intros r; split; reflexivity).
    destruct (fails_at db AtRowsAffected); [exact H|].
    destruct (Nat.eqb _ 0); exact H.
  - unfold models.UpdateArticleTags.
    destruct (fails_at db AtPrepare); [reflexivity|].
    destruct (fails_at db AtExec); [reflexivity|].
    assert (H : others i u (with_articles db
                  (update_where i u (set_tags (Join ts ",") now)
                                (articles db)))
                = others i u db)
      by (apply others_update_where; intros r; split; reflexivity).
    destruct (fails_at db AtRowsAffected); [exact H|].
    destruct (Nat.eqb _ 0); exact H.
  - unfold models.DeleteArticle.
    destruct (fails_at db AtPrepare); [reflexivity|].
    destruct (fails_at db AtExec); [reflexivity|].
    pose proof (others_deleted i u db) as H.
    destruct (fails_at db AtRowsAffected); [exact H|].
    destruct (Nat.eqb _ 0); exact H.
  - intros uuid a Hid. unfold Save. apply String.eqb_neq in Hid. rewrite Hid.
    destruct (fails_at db AtPrepare); [reflexivity|].
    destruct (fails_at db AtExec); [reflexivity|].
    cbn [fst snd]. apply others_update_where. intros r. split; reflexivity.
Qed.

(** Alice changes, then deletes, her article: Bob's row stays. *)
Lemma mutations_leave_other_rows_witness :
  others "id-1" "alice"
         (fst (models.UpdateArticleStatus "id-1" "alice" "read" 30 db_two))
    = [row_bob]
  /\ others "id-1" "alice"
            (fst (models.UpdateArticleTags "id-1" "alice" ["x"] 30 db_two))
     = [row_bob]
  /\ others "id-1" "alice" (fst (models.DeleteArticle "id-1" "alice" db_two))
     = [row_bob]
  /\ others "id-1" "alice"
            (snd (fst (Save "id-2" 30 (set_Status article_alice "failed")
                            db_two)))
     = [row_bob].
Proof.
  destruct (mutations_leave_other_rows "id-1" "alice" "read" ["x"] 30 db_two)
    as [H1 [H2 [H3 H4]]].
  split; [exact H1|]. split; [exact H2|]. split; [exact H3|].
  apply (H4 "id-2" (set_Status article_alice "failed")). discriminate.
Defined.

(** X3.  On a working connection [UpdateArticleStatus] on an article the
    user owns returns no error, and the article then reads back with
    the new status and the new update instant and is otherwise what it
    was. *)
Theorem status_update_reads_back
    (i u st : string) (now : Time) (db : DB) (r0 : Row) :
  healthy db -> persisted i u db = Some r0 ->
  let db' := fst (models.UpdateArticleStatus i u st now db) in
  snd (models.UpdateArticleStatus i u st now db) = None
  /\ GetArticleByID i u db'
     = (Some {| ID := i; UserID := u; URL := row_url r0;
                Title := row_title r0; Summary := row_summary r0;
                Tags := Split (row_tags r0) ","; Status := st;
                CreatedAt := row_created_at r0; UpdatedAt := now |}, None).
Proof.
  intros Hh Hp db'. subst db'. unfold models.UpdateArticleStatus.
  rewrite !(healthy_fails_at db _ Hh), (persisted_rows_affected _ _ _ _ Hp).
  cbn [fst snd]. split; [reflexivity|].
  destruct (persisted_matches _ _ _ _ Hp) as [_ [Hi Hu]].
  erewrite GetArticleByID_hit; [|apply healthy_with_articles, Hh|].
  2:{ rewrite persisted_update_where by (intros r; split; reflexivity).
      rewrite Hp. reflexivity. }
  unfold article_of_row. cbn. rewrite Hi, Hu. reflexivity.
Qed.

Lemma status_update_reads_back_witness :
  let db' := fst (models.UpdateArticleStatus "id-7" "bob" "unread" 30 db_two) in
  snd (models.UpdateArticleStatus "id-7" "bob" "unread" 30 db_two) = None
  /\ GetArticleByID "id-7" "bob" db'
     = (Some {| ID := "id-7"; UserID := "bob"; URL := "http://y.test/b";
                Title := "B"; Summary := "about b"; Tags := ["go"; "sql"];
                Status := "unread"; CreatedAt := 5; UpdatedAt := 30 |}, None).
Proof.
  apply (status_update_reads_back "id-7" "bob" "unread" 30 db_two row_bob);
    reflexivity.
Defined.

(** X4.  On a working connection [UpdateArticleTags] on an article the
    user owns returns no error, and the tags then read back as the
    joined text cut at its commas: that is the list given exactly when
    the list is non-empty and no tag contains a comma, and in any case a
    non-empty list of comma-free strings. *)
Theorem tags_update_reads_back
    (i u : string) (ts : list string) (now : Time) (db : DB) (r0 : Row) :
  healthy db -> persisted i u db = Some r0 ->
  let db' := fst (models.UpdateArticleTags i u ts now db) in
  snd (models.UpdateArticleTags i u ts now db) = None
  /\ exists stored,
       GetArticleByID i u db' = (Some stored, None)
       /\ Tags stored = Split (Join ts ",") ","
       /\ (Tags stored = ts <-> ts <> [] /\ Forall no_comma ts)
       /\ Tags stored <> [] /\ Forall no_comma (Tags stored)
       /\ Status stored = row_status r0 /\ Title stored = row_title r0
       /\ Summary stored = row_summary r0 /\ URL stored = row_url r0
       /\ UpdatedAt stored = now.
Proof.
  intros Hh Hp db'. subst db'. unfold models.UpdateArticleTags.
  rewrite !(healthy_fails_at db _ Hh), (persisted_rows_affected _ _ _ _ Hp).
  cbn [fst snd]. split; [reflexivity|].
  eexists. split.
  - apply GetArticleByID_hit; [apply healthy_with_articles, Hh|].
    rewrite persisted_update_where by (intros r; split; reflexivity).
    rewrite Hp. reflexivity.
  - cbn [article_of_row set_tags Tags Status Title Summary URL UpdatedAt
         row_tags row_status row_title row_summary row_url row_updated_at].
    split; [reflexivity|]. split; [apply Split_Join_iff|].
    destruct (Split_comma_facts (Join ts ",")) as [_ [H1 H2]].
    repeat split; assumption.
Qed.

(** A tag with a comma in it comes back as two tags. *)
Lemma tags_update_reads_back_witness :
  let db' := fst (models.UpdateArticleTags "id-7" "bob" ["a,b"; "c"] 30
                                           db_two) in
  snd (models.UpdateArticleTags "id-7" "bob" ["a,b"; "c"] 30 db_two) = None
  /\ exists stored,
       GetArticleByID "id-7" "bob" db' = (Some stored, None)
       /\ Tags stored = ["a"; "b"; "c"].
Proof.
  destruct (tags_update_reads_back "id-7" "bob" ["a,b"; "c"] 30 db_two
              row_bob eq_refl eq_refl) as [H1 [stored [H2 [H3 _]]]].
  split; [exact H1|]. exists stored. split; [exact H2|exact H3].
Defined.

Lemma DeleteArticle_hit (i u : string) (db : DB) (r0 : Row) :
  healthy db -> persisted i u db = Some r0 ->
  models.DeleteArticle i u db
  = (with_articles db (filter (fun r => negb (matches i u r)) (articles db)),
     None).
Proof.
  intros Hh Hp. unfold models.DeleteArticle.
  rewrite !(healthy_fails_at db _ Hh), (persisted_rows_affected _ _ _ _ Hp).
  reflexivity.
Qed.

(** X5.  On a working connection [DeleteArticle] on an article the user
    owns returns no error; afterwards the article is not found by
    [GetArticleByID], is no longer listed, and a second [DeleteArticle]
    returns the not-found error and changes nothing. *)
Theorem delete_then_miss (i u : string) (db : DB) (r0 : Row) :
  healthy db -> persisted i u db = Some r0 ->
  let db' := fst (models.DeleteArticle i u db) in
  snd (models.DeleteArticle i u db) = None
  /\ GetArticleByID i u db' = (None, None)
  /\ (forall x, In x (fst (GetArticlesByUserID u "" "" db')) -> ID x <> i)
  /\ models.DeleteArticle i u db' = (db', Some (not_found i u)).
Proof.
  intros Hh Hp db'. subst db'.
  rewrite !(DeleteArticle_hit i u db r0 Hh Hp). cbn [fst snd].
  set (db' := with_articles db
                (filter (fun r => negb (matches i u r)) (articles db))).
  assert (Hh' : healthy db') by (apply healthy_with_articles, Hh).
  assert (Hu : unowned i u db').
  { intros r Hr. unfold db' in Hr. cbn [articles with_articles] in Hr.
    apply filter_In in Hr. destruct Hr as [_ Hr].
    apply negb_true_iff in Hr. exact Hr. }
  split; [reflexivity|]. split; [apply GetArticleByID_miss; assumption|].
  split; [|apply DeleteArticle_miss; assumption].
  intros x Hx E. rewrite (GetArticlesByUserID_all u db' Hh') in Hx.
  cbn [fst] in Hx. apply in_map_iff in Hx. destruct Hx as [r [<- Hr]].
  apply filter_In in Hr. destruct Hr as [Hr Hs].
  specialize (Hu r Hr). unfold matches in Hu. cbn [article_of_row ID] in E.
  unfold selected in Hs. rewrite !andb_true_iff in Hs.
  destruct Hs as [Hs _]. rewrite E, String.eqb_refl, Hs in Hu.
  discriminate Hu.
Qed.

Lemma delete_then_miss_witness :
  let db' := fst (models.DeleteArticle "id-1" "alice" db_two) in
  snd (models.DeleteArticle "id-1" "alice" db_two) = None
  /\ GetArticleByID "id-1" "alice" db' = (None, None)
  /\ (forall x, In x (fst (GetArticlesByUserID "alice" "" "" db')) ->
                ID x <> "id-1")
  /\ models.DeleteArticle "id-1" "alice" db'
     = (db', Some (not_found "id-1" "alice")).
Proof.
  apply (delete_then_miss "id-1" "alice" db_two row_alice); reflexivity.
Defined.

End StoreComposition.

(* ================================================================== *)
(** ** Listing, filtering and reading back *)

Section Listing.

Lemma GetArticlesByUserID_healthy (u sf : string) (db : DB) :
  healthy db ->
  GetArticlesByUserID u sf "" db
  = (map article_of_row (filter (selected u sf) (articles db)), None).
Proof.
  intros Hh. unfold GetArticlesByUserID. cbn [String.eqb].
  rewrite !(healthy_fails_at db _ Hh).
  destruct (filter (selected u sf) (articles db)); reflexivity.
Qed.

(** X6.  On a working connection [GetArticlesByUserID] without a tag
    filter returns no error and only articles of the asking user, each
    read from a row of the table, all with the status asked for when
    one is asked for; and it leaves out no row of the user that has the
    status asked for (no row of the user at all when no status is asked
    for). *)
Theorem listing_is_the_owners (u sf : string) (db : DB) :
  healthy db ->
  snd (GetArticlesByUserID u sf "" db) = None
  /\ (forall x, In x (fst (GetArticlesByUserID u sf "" db)) ->
        UserID x = u
        /\ (sf <> "" -> Status x = sf)
        /\ exists r, In r (articles db) /\ x = article_of_row r)
  /\ (forall r, In r (articles db) -> row_user_id r = u ->
        sf = "" \/ row_status r = sf ->
        In (article_of_row r) (fst (GetArticlesByUserID u sf "" db))).
Proof.
  intros Hh. rewrite !(GetArticlesByUserID_healthy _ _ _ Hh). cbn [fst snd].
  split; [reflexivity|]. split.
  - intros x Hx. apply in_map_iff in Hx. destruct Hx as [r [<- Hr]].
    apply filter_In in Hr. destruct Hr as [Hr Hs].
    unfold selected in Hs. rewrite !andb_true_iff in Hs.
    destruct Hs as [Hu Hst]. apply String.eqb_eq in Hu.
    split; [exact Hu|]. split; [|exists r; split; [exact Hr|reflexivity]].
    intros Hsf. apply String.eqb_neq in Hsf. rewrite Hsf in Hst.
    apply String.eqb_eq in Hst. exact Hst.
  - intros r Hr Hu Hst. apply in_map, filter_In. split; [exact Hr|].
    unfold selected. rewrite Hu, String.eqb_refl. cbn [andb].
    destruct (String.eqb_spec sf "") as [E|E]; [reflexivity|].
    destruct Hst as [Hst|Hst]; [contradiction|].
    rewrite Hst. apply String.eqb_refl.
Qed.

Lemma listing_is_the_owners_witness :
  snd (GetArticlesByUserID "bob" "read" "" db_two) = None
  /\ (forall x, In x (fst (GetArticlesByUserID "bob" "read" "" db_two)) ->
        UserID x = "bob"
        /\ ("read" <> "" -> Status x = "read")
        /\ exists r, In r (articles db_two) /\ x = article_of_row r)
  /\ In (article_of_row row_bob)
        (fst (GetArticlesByUserID "bob" "read" "" db_two)).
Proof.
  destruct (listing_is_the_owners "bob" "read" db_two eq_refl)
    as [H1 [H2 H3]].
  split; [exact H1|]. split; [exact H2|].
  apply H3; [left; reflexivity|reflexivity|right; reflexivity].
Defined.

(** X8.  On a working connection [GetTagsByUserID] returns no error and
    a list without repetition whose elements are exactly the pieces, cut
    at commas, of the tags of the user's rows; no element contains a
    comma, and an article saved without tags contributes the empty
    string as a tag. *)
Theorem tags_of_user (u : string) (db : DB) :
  healthy db ->
  snd (GetTagsByUserID u db) = None
  /\ NoDup (fst (GetTagsByUserID u db))
  /\ (forall t, In t (fst (GetTagsByUserID u db)) <->
                exists r, In r (articles db) /\ row_user_id r = u
                          /\ In t (Split (row_tags r) ","))
  /\ Forall no_comma (fst (GetTagsByUserID u db))
  /\ (forall r, In r (articles db) -> row_user_id r = u -> row_tags r = "" ->
                In "" (fst (GetTagsByUserID u db))).
Proof.
  intros Hh.
  assert (E : GetTagsByUserID u db
              = (nodup string_dec
                   (flat_map (fun t => Split t ",")
                      (nodup string_dec
                         (map row_tags
                            (filter (fun r => String.eqb (row_user_id r) u)
                                    (articles db))))), None)).
  { unfold GetTagsByUserID. rewrite !(healthy_fails_at db _ Hh).
    destruct (nodup string_dec _); reflexivity. }
  rewrite E. cbn [fst snd].
  assert (Hin : forall t,
            In t (nodup string_dec
                    (flat_map (fun t => Split t ",")
                       (nodup string_dec
                          (map row_tags
                             (filter (fun r => String.eqb (row_user_id r) u)
                                     (articles db))))))
            <-> exists r, In r (articles db) /\ row_user_id r = u
                          /\ In t (Split (row_tags r) ",")).
  { intros t. rewrite nodup_In, in_flat_map. split.
    - intros [ts [Hts Ht]]. apply nodup_In, in_map_iff in Hts.
      destruct Hts as [r [<- Hr]]. apply filter_In in Hr.
      destruct Hr as [Hr Hu]. apply String.eqb_eq in Hu.
      exists r. repeat split; assumption.
    - intros [r [Hr [Hu Ht]]]. exists (row_tags r). split; [|exact Ht].
      apply nodup_In, in_map, filter_In. split; [exact Hr|].
      apply String.eqb_eq, Hu. }
  split; [reflexivity|]. split; [apply NoDup_nodup|]. split; [exact Hin|].
  split.
  - apply Forall_forall. intros t Ht. apply Hin in Ht.
    destruct Ht as [r [_ [_ Ht]]].
    destruct (Split_comma_facts (row_tags r)) as [_ [_ Hf]].
    rewrite Forall_forall in Hf. apply Hf, Ht.
  - intros r Hr Hu Ht. apply Hin. exists r. repeat split; try assumption.
    rewrite Ht. left. reflexivity.
Qed.

(** Alice's fresh article has no tags: her tag list is the empty tag. *)
Lemma tags_of_user_witness :
  fst (GetTagsByUserID "alice" db_two) = [""]
  /\ snd (GetTagsByUserID "alice" db_two) = None
  /\ NoDup (fst (GetTagsByUserID "alice" db_two))
  /\ In "" (fst (GetTagsByUserID "alice" db_two)).
Proof.
  destruct (tags_of_user "alice" db_two eq_refl) as [H1 [H2 [_ [_ H5]]]].
  split; [reflexivity|]. split; [exact H1|]. split; [exact H2|].
  apply (H5 row_alice); [right; left; reflexivity|reflexivity|reflexivity].
Defined.

(** X9.  On a working connection what [Save] wrote is what
    [GetArticleByID] reads, but for two things: the tags come back as
    the joined text cut at its commas, and an updating [Save] does not
    write [CreatedAt], so the row's creation instant comes back. *)
Theorem Save_reads_back (uuid : string) (now : Time) (a : Article) (db : DB) :
  healthy db ->
  let db' := snd (fst (Save uuid now a db)) in
  (ID a = "" -> id_taken uuid (articles db) = false ->
   GetArticleByID uuid (UserID a) db'
   = (Some (as_stored (created a uuid now) (Split (Join (Tags a) ",") ",")
                      now), None))
  /\ (ID a <> "" -> forall r0, persisted (ID a) (UserID a) db = Some r0 ->
      GetArticleByID (ID a) (UserID a) db'
      = (Some (as_stored (touch a now) (Split (Join (Tags a) ",") ",")
                         (row_created_at r0)), None)).
Proof.
  intros Hh db'. subst db'. split.
  - intros Hid Hfree. rewrite (Save_insert _ _ _ _ Hid Hh Hfree).
    cbn [fst snd].
    rewrite (GetArticleByID_hit uuid (UserID a) _
               (row_of_article (created a uuid now) (Join (Tags a) ","))
               (healthy_with_articles db _ Hh)); [reflexivity|].
    apply persisted_insert; [exact Hfree|].
    unfold matches. cbn. rewrite !String.eqb_refl. reflexivity.
  - intros Hid r0 Hp.
    erewrite GetArticleByID_hit;
      [|rewrite (Save_update _ _ _ _ Hid Hh); apply healthy_with_articles, Hh
       |apply (Save_update_persisted uuid now a db r0 Hid Hh Hp)].
    destruct (persisted_matches _ _ _ _ Hp) as [_ [Hi Hu]].
    unfold article_of_row, as_stored. cbn. rewrite Hi, Hu. reflexivity.
Qed.

Lemma Save_reads_back_witness :
  GetArticleByID "id-7" "bob"
    (snd (fst (Save "id-9" 30
                    {| ID := "id-7"; UserID := "bob"; URL := "http://y.test/c";
                       Title := "C"; Summary := "about c"; Tags := ["x"; "y"];
                       Status := "unread"; CreatedAt := 99; UpdatedAt := 0 |}
                    db_two)))
  = (Some {| ID := "id-7"; UserID := "bob"; URL := "http://y.test/c";
             Title := "C"; Summary := "about c"; Tags := ["x"; "y"];
             Status := "unread"; CreatedAt := 5; UpdatedAt := 30 |}, None).
Proof.
  destruct (Save_reads_back "id-9" 30
              {| ID := "id-7"; UserID := "bob"; URL := "http://y.test/c";
                 Title := "C"; Summary := "about c"; Tags := ["x"; "y"];
                 Status := "unread"; CreatedAt := 99; UpdatedAt := 0 |}
              db_two eq_refl) as [_ H].
  apply (H ltac:(discriminate) row_bob eq_refl).
Defined.

(** X10.  On a working connection, saving an article as it was read
    changes nothing in its row but the update instant. *)
Theorem read_then_Save_keeps_row
    (uuid i u : string) (now : Time) (db : DB) (r0 : Row) (stored : Article) :
  healthy db -> i <> "" -> persisted i u db = Some r0 ->
  GetArticleByID i u db = (Some stored, None) ->
  snd (Save uuid now stored db) = None
  /\ persisted i u (snd (fst (Save uuid now stored db)))
     = Some (touched r0 now).
Proof.
  intros Hh Hi Hp Hg. rewrite (GetArticleByID_hit _ _ _ _ Hh Hp) in Hg.
  inversion Hg; subst stored. clear Hg.
  destruct (persisted_matches _ _ _ _ Hp) as [_ [Hid Hu]].
  assert (Hid' : ID (article_of_row r0) <> "") by (cbn; congruence).
  split; [rewrite (Save_update _ _ _ _ Hid' Hh); reflexivity|].
  pose proof (Save_update_persisted uuid now (article_of_row r0) db r0
                                    Hid' Hh) as HS.
  cbn [article_of_row ID UserID] in HS. rewrite Hid, Hu in HS.
  rewrite (HS Hp). cbn [article_of_row Tags].
  destruct (Split_comma_facts (row_tags r0)) as [-> _]. reflexivity.
Qed.

Lemma read_then_Save_keeps_row_witness :
  snd (Save "id-9" 30 (article_of_row row_bob) db_two) = None
  /\ persisted "id-7" "bob"
       (snd (fst (Save "id-9" 30 (article_of_row row_bob) db_two)))
     = Some (touched row_bob 30).
Proof.
  apply (read_then_Save_keeps_row "id-9" "id-7" "bob" 30 db_two row_bob
           (article_of_row row_bob)).
  - reflexivity.
  - discriminate.
  - reflexivity.
  - reflexivity.
Defined.

End Listing.

(* ================================================================== *)
(** ** Statements of the endpoints *)

Section Endpoints.

(** The article [SubmitArticle] creates. *)
Lemma SubmitArticle_created (user u uuid : string) (now : Time) (db : DB) :
  healthy db -> id_taken uuid (articles db) = false -> u <> "" ->
  handlers.SubmitArticle (Some user) (Some u) uuid now db
  = (handlers.mkResponse handlers.StatusCreated
       (handlers.LaunchedArticleJSON
          {| ID := uuid; UserID := user; URL := u; Title := ""; Summary := "";
             Tags := []; Status := "processing"; CreatedAt := now;
             UpdatedAt := now |}),
     with_articles db
       (articles db
          ++ [{| row_id := uuid; row_user_id := user; row_url := u;
                 row_title := ""; row_summary := ""; row_tags := "";
                 row_status := "processing"; row_created_at := now;
                 row_updated_at := now |}])%list,
     Some {| ID := uuid; UserID := user; URL := u; Title := ""; Summary := "";
             Tags := []; Status := "processing"; CreatedAt := now;
             UpdatedAt := now |}).
Proof.
  intros Hh Hfree Hu. unfold handlers.SubmitArticle.
  apply String.eqb_neq in Hu. rewrite Hu.
  rewrite Save_insert by (try reflexivity; assumption). reflexivity.
Qed.

(** X11.  On a working connection a submission with a non-empty URL and
    an unused id is answered 201 and hands to the background run an
    article in status "processing" under that id; on the store the
    handler leaves, the owner reads the article back through
    [ReturnArticle] (with the tag list [""]), and any other user asking
    for the same id gets 404.  Nothing is said of the body of the 201,
    which is encoded while the run may be writing. *)
Theorem submit_then_read
    (user u uuid : string) (now : Time) (db : DB) :
  healthy db -> id_taken uuid (articles db) = false ->
  u <> "" -> user <> "" -> uuid <> "" ->
  let a1 := {| ID := uuid; UserID := user; URL := u; Title := "";
               Summary := ""; Tags := []; Status := "processing";
               CreatedAt := now; UpdatedAt := now |} in
  let out := handlers.SubmitArticle (Some user) (Some u) uuid now db in
  handlers.code (fst (fst out)) = handlers.StatusCreated
  /\ snd out = Some a1
  /\ handlers.ReturnArticle (Some user) uuid (snd (fst out))
     = handlers.mkResponse handlers.StatusOK
         (handlers.ArticleJSON (as_stored a1 [""] now))
  /\ forall other, other <> "" -> other <> user ->
       handlers.ReturnArticle (Some other) uuid (snd (fst out))
       = handlers.http_Error "Article not found" handlers.StatusNotFound.
Proof.
  intros Hh Hfree Hu Huser Huuid a1 out. subst out.
  rewrite (SubmitArticle_created _ _ _ _ _ Hh Hfree Hu). cbn [fst snd].
  set (row := {| row_id := uuid; row_user_id := user; row_url := u;
                 row_title := ""; row_summary := ""; row_tags := "";
                 row_status := "processing"; row_created_at := now;
                 row_updated_at := now |}).
  set (db' := with_articles db (articles db ++ [row])%list).
  assert (Hh' : healthy db') by (apply healthy_with_articles, Hh).
  split; [reflexivity|]. split; [reflexivity|]. split.
  - unfold handlers.ReturnArticle.
    apply String.eqb_neq in Huser. apply String.eqb_neq in Huuid.
    rewrite Huser, Huuid.
    rewrite (GetArticleByID_hit uuid user db' row Hh'); [reflexivity|].
    apply persisted_insert; [exact Hfree|].
    unfold matches. cbn. rewrite !String.eqb_refl. reflexivity.
  - intros other Ho Hne.
    assert (Hun : unowned uuid other db').
    { intros r Hr. unfold db' in Hr. cbn [articles with_articles] in Hr.
      apply in_app_iff in Hr. destruct Hr as [Hr|[<-|[]]].
      - unfold matches.
        destruct (String.eqb_spec (row_id r) uuid) as [E|E]; [|reflexivity].
        exfalso. apply (id_taken_false _ _ Hfree). rewrite <- E.
        apply in_map, Hr.
      - unfold matches. cbn.
        assert (E : String.eqb user other = false)
          by (apply String.eqb_neq; congruence).
        rewrite E. apply andb_false_r. }
    unfold handlers.ReturnArticle.
    apply String.eqb_neq in Ho. apply String.eqb_neq in Huuid.
    rewrite Ho, Huuid, (GetArticleByID_miss _ _ _ Hh' Hun). reflexivity.
Qed.

Lemma submit_then_read_witness :
  let out := handlers.SubmitArticle (Some "alice") (Some "http://x.test/a")
                                    "id-1" 10 db_empty in
  handlers.code (fst (fst out)) = handlers.StatusCreated
  /\ snd out = Some article_alice
  /\ handlers.ReturnArticle (Some "alice") "id-1" (snd (fst out))
     = handlers.mkResponse handlers.StatusOK
         (handlers.ArticleJSON (as_stored article_alice [""] 10))
  /\ handlers.ReturnArticle (Some "bob") "id-1" (snd (fst out))
     = handlers.http_Error "Article not found" handlers.StatusNotFound.
Proof.
  destruct (submit_then_read "alice" "http://x.test/a" "id-1" 10 db_empty
              eq_refl eq_refl ltac:(discriminate) ltac:(discriminate)
              ltac:(discriminate)) as [H1 [H2 [H3 H4]]].
  split; [exact H1|]. split; [exact H2|]. split; [exact H3|].
  apply (H4 "bob"); discriminate.
Defined.

(** X12.  Whatever the request and the state of the connection,
    [SubmitArticle] hands an article to the background run exactly when
    it answers 201, and then it has added exactly the row of that
    article as it was when handed over: status "processing", owned by
    the asking user, under the generated id; in every other case the
    table is what it was. *)
Theorem submit_launches_what_it_stored
    (c reqURL : option string) (uuid : string) (now : Time) (db : DB) :
  let out := handlers.SubmitArticle c reqURL uuid now db in
  (snd out <> None <-> handlers.code (fst (fst out)) = handlers.StatusCreated)
  /\ (snd out = None -> snd (fst out) = db)
  /\ (forall a, snd out = Some a ->
        c = Some (UserID a) /\ reqURL = Some (URL a) /\ URL a <> ""
        /\ ID a = uuid /\ Status a = "processing"
        /\ articles (snd (fst out))
           = (articles db ++ [row_of_article a ""])%list).
Proof.
  unfold handlers.SubmitArticle.
  destruct c as [user|];
    [|cbn; repeat split; try discriminate; intros; congruence].
  destruct reqURL as [u|];
    [|cbn; repeat split; try discriminate; intros; congruence].
  destruct (String.eqb_spec u "") as [E|E];
    [cbn; repeat split; try discriminate; intros; congruence|].
  unfold Save. cbn [ID String.eqb].
  destruct (fails_at db AtPrepare);
    [cbn; repeat split; try discriminate; intros; congruence|].
  destruct (fails_at db AtExec);
    [cbn; repeat split; try discriminate; intros; congruence|].
  destruct (id_taken uuid (articles db));
    [cbn; repeat split; try discriminate; intros; congruence|].
  cbn. split; [split; [reflexivity|discriminate]|].
  split; [discriminate|]. intros a Ha. inversion Ha; subst a. cbn.
  repeat split. exact E.
Qed.

(** Alice's submission is launched and stored; one without a URL is
    neither. *)
Lemma submit_launches_what_it_stored_witness :
  let out := handlers.SubmitArticle (Some "alice") (Some "http://x.test/a")
                                    "id-1" 10 db_empty in
  let out0 := handlers.SubmitArticle (Some "alice") (Some "") "id-1" 10
                                     db_empty in
  snd out = Some article_alice
  /\ handlers.code (fst (fst out)) = handlers.StatusCreated
  /\ articles (snd (fst out)) = [row_alice]
  /\ snd out0 = None /\ snd (fst out0) = db_empty
  /\ handlers.code (fst (fst out0)) <> handlers.StatusCreated.
Proof.
  intros out out0.
  destruct (submit_launches_what_it_stored (Some "alice")
              (Some "http://x.test/a") "id-1" 10 db_empty) as [H1 [_ H3]].
  destruct (submit_launches_what_it_stored (Some "alice") (Some "") "id-1" 10
              db_empty) as [G1 [G2 _]].
  split; [reflexivity|].
  split; [apply H1; discriminate|].
  split; [apply (H3 article_alice eq_refl)|].
  split; [reflexivity|]. split; [apply G2; reflexivity|].
  intros E. apply G1 in E. apply E. reflexivity.
Defined.

(** X13.  On a working connection each of the three mutating endpoints,
    asked about an id that has no row under the asking user, answers 404
    "Article not found or not owned by user" and leaves the store as it
    is, whether the id is unknown or another user's. *)
Theorem endpoints_answer_404_on_miss
    (u i st : string) (ts : list string) (now : Time) (db : DB) :
  healthy db -> unowned i u db -> u <> "" -> i <> "" ->
  st = "read" \/ st = "unread" -> ts <> [] ->
  let miss := handlers.http_Error "Article not found or not owned by user"
                                  handlers.StatusNotFound in
  handlers.UpdateArticleStatus (Some u) i (Some st) now db = (miss, db)
  /\ handlers.UpdateArticleTags (Some u) i (Some ts) now db = (miss, db)
  /\ handlers.DeleteArticle (Some u) i db = (miss, db).
Proof.
  intros Hh Hun Hu Hi Hst Hts miss.
  apply String.eqb_neq in Hu. apply String.eqb_neq in Hi.
  split; [|split].
  - unfold handlers.UpdateArticleStatus. rewrite Hi.
    assert (Hg : negb (String.eqb st "read") && negb (String.eqb st "unread")
                 = false) by (destruct Hst; subst st; reflexivity).
    rewrite Hg, (UpdateArticleStatus_miss _ _ _ _ _ Hh Hun).
    rewrite not_found_is_recognised. reflexivity.
  - unfold handlers.UpdateArticleTags. rewrite Hi.
    destruct ts as [|t ts]; [congruence|]. cbn [List.length Nat.eqb].
    rewrite (UpdateArticleTags_miss _ _ _ _ _ Hh Hun).
    rewrite not_found_is_recognised. reflexivity.
  - unfold handlers.DeleteArticle. rewrite Hu, Hi.
    rewrite (DeleteArticle_miss _ _ _ Hh Hun).
    rewrite not_found_is_recognised. reflexivity.
Qed.

(** Alice asks about Bob's article. *)
Lemma endpoints_answer_404_on_miss_witness :
  let miss := handlers.http_Error "Article not found or not owned by user"
                                  handlers.StatusNotFound in
  handlers.UpdateArticleStatus (Some "alice") "id-7" (Some "read") 30 db_two
    = (miss, db_two)
  /\ handlers.UpdateArticleTags (Some "alice") "id-7" (Some ["x"]) 30 db_two
     = (miss, db_two)
  /\ handlers.DeleteArticle (Some "alice") "id-7" db_two = (miss, db_two).
Proof.
  apply (endpoints_answer_404_on_miss "alice" "id-7" "read" ["x"] 30 db_two).
  - reflexivity.
  - intros r [<-|[<-|[]]]; reflexivity.
  - discriminate.
  - discriminate.
  - left. reflexivity.
  - discriminate.
Defined.

(** X14.  Whatever the request and the state of the connection, a row
    found in the table after the status endpoint has run was there
    before or has the status "read" or "unread": the endpoint can set
    no other status. *)
Theorem status_endpoint_sets_read_or_unread
    (c : option string) (i : string) (st : option string) (now : Time)
    (db : DB) (r' : Row) :
  In r' (articles (snd (handlers.UpdateArticleStatus c i st now db))) ->
  In r' (articles db) \/ row_status r' = "read" \/ row_status r' = "unread".
Proof.
  unfold handlers.UpdateArticleStatus.
  destruct c as [u|]; [|intros H; left; exact H].
  destruct (String.eqb i ""); [intros H; left; exact H|].
  destruct st as [st|]; [|intros H; left; exact H].
  destruct (String.eqb_spec st "read") as [E1|E1];
    destruct (String.eqb_spec st "unread") as [E2|E2];
    cbn [negb andb]; try (intros H; left; exact H);
    (assert (Hst : st = "read" \/ st = "unread") by tauto);
    (assert (Hup : In r' (update_where i u (set_status st now) (articles db))
                   -> In r' (articles db) \/ row_status r' = "read"
                      \/ row_status r' = "unread")
       by (unfold update_where; intros H; apply in_map_iff in H;
           destruct H as [r [<- Hr]];
           destruct (matches i u r); [right; exact Hst|left; exact Hr]));
    unfold models.UpdateArticleStatus;
    (destruct (fails_at db AtPrepare);
       [destruct (Contains _ _); intros H; left; exact H|]);
    (destruct (fails_at db AtExec);
       [destruct (Contains _ _); intros H; left; exact H|]);
    (destruct (fails_at db AtRowsAffected);
       [destruct (Contains _ _); exact Hup|]);
    (destruct (Nat.eqb _ 0); [destruct (Contains _ _)|]; exact Hup).
Qed.

(** Bob marks his article unread; a request for "failed" is refused. *)
Lemma status_endpoint_sets_read_or_unread_witness :
  (forall r',
     In r' (articles (snd (handlers.UpdateArticleStatus
                             (Some "bob") "id-7" (Some "unread") 30 db_two)))
     -> In r' (articles db_two)
        \/ row_status r' = "read" \/ row_status r' = "unread")
  /\ snd (handlers.UpdateArticleStatus (Some "bob") "id-7" (Some "failed") 30
                                       db_two) = db_two.
Proof.
  split; [|reflexivity].
  intros r'.
  apply (status_endpoint_sets_read_or_unread (Some "bob") "id-7"
           (Some "unread") 30 db_two r').
Defined.

End Endpoints.

(* ================================================================== *)
(** ** More on the ingestion run *)

Section RunOutcome.

(** The store after a run is the store before, or what one [Save] of an
    article with the same id and owner made of it. *)
Lemma run_store (w : World) (a : Article) (db : DB) :
  store (ProcessNewArticle w a db) = db
  \/ exists x, ID x = ID a /\ UserID x = UserID a
               /\ store (ProcessNewArticle w a db)
                  = snd (fst (Save (GenerateUUID w) (Now w) x db)).
Proof.
  unfold ProcessNewArticle.
  destruct (http_Get w (URL a)) as [fc|].
  - destruct (negb (Nat.eqb (StatusCode fc) services.StatusOK));
      [left; reflexivity|].
    destruct (Body fc) as [body|]; [|left; reflexivity].
    destruct (NewDocumentFromReader w body) as [doc|]; [|left; reflexivity].
    destruct (String.eqb (GEMINI_API_KEY w) ""); [left; reflexivity|].
    destruct (negb (NewClient w (GEMINI_API_KEY w))); [left; reflexivity|].
    destruct (GenerateContent w 0 _ _); try (left; reflexivity).
    destruct (GenerateContent w 1 _ _); try (left; reflexivity).
    right.
    match goal with
    | |- context [Save ?u ?n ?x ?d] =>
        exists x; destruct (Save u n x d) as [[a' db'] e]
    end.
    repeat split.
  - right.
    match goal with
    | |- context [Save ?u ?n ?x ?d] =>
        exists x; destruct (Save u n x d) as [[a' db'] e]
    end.
    repeat split.
Qed.

Lemma Save_update_others (uuid : string) (now : Time) (a : Article) (db : DB) :
  ID a <> "" ->
  others (ID a) (UserID a) (snd (fst (Save uuid now a db)))
  = others (ID a) (UserID a) db.
Proof.
  intros Hid. unfold Save. apply String.eqb_neq in Hid. rewrite Hid.
  destruct (fails_at db AtPrepare); [reflexivity|].
  destruct (fails_at db AtExec); [reflexivity|].
  cbn [fst snd]. apply others_update_where. intros r. split; reflexivity.
Qed.

Lemma Save_update_unowned (uuid : string) (now : Time) (a : Article)
    (db : DB) :
  ID a <> "" -> unowned (ID a) (UserID a) db ->
  snd (fst (Save uuid now a db)) = db.
Proof.
  intros Hid Hun. unfold Save. apply String.eqb_neq in Hid. rewrite Hid.
  destruct (fails_at db AtPrepare); [reflexivity|].
  destruct (fails_at db AtExec); [reflexivity|].
  cbn [fst snd]. rewrite (update_where_none _ _ _ _ Hun).
  apply with_articles_same.
Qed.

(** X15.  A run on an article that has an id neither adds nor removes a
    row nor changes the id or owner of one, and leaves every row but the
    article's own exactly as it was; if the article's row is gone by
    then (deleted in the meantime) the store is left as it is. *)
Theorem run_touches_only_its_row (w : World) (a : Article) (db : DB) :
  ID a <> "" ->
  let r := ProcessNewArticle w a db in
  keys (store r) = keys db
  /\ others (ID a) (UserID a) (store r) = others (ID a) (UserID a) db
  /\ (unowned (ID a) (UserID a) db -> store r = db).
Proof.
  intros Hid r. subst r.
  destruct (run_store w a db) as [->|[x [Hi [Hu ->]]]].
  - repeat split.
  - assert (Hx : ID x <> "") by congruence.
    rewrite <- Hi, <- Hu. split; [apply Save_update_keys, Hx|].
    split; [apply Save_update_others, Hx|].
    apply Save_update_unowned, Hx.
Qed.

(** Alice's article is committed: Bob's row is untouched; and a run on
    an article deleted in the meantime changes nothing. *)
Lemma run_touches_only_its_row_witness :
  let w := world_page 200 "T" (GenResponse "S") (GenResponse "t1,t2") in
  keys (store (ProcessNewArticle w article_alice db_two)) = keys db_two
  /\ others "id-1" "alice" (store (ProcessNewArticle w article_alice db_two))
     = [row_bob]
  /\ store (ProcessNewArticle w article_alice db_empty) = db_empty.
Proof.
  destruct (run_touches_only_its_row
              (world_page 200 "T" (GenResponse "S") (GenResponse "t1,t2"))
              article_alice db_two ltac:(discriminate)) as [H1 [H2 _]].
  destruct (run_touches_only_its_row
              (world_page 200 "T" (GenResponse "S") (GenResponse "t1,t2"))
              article_alice db_empty ltac:(discriminate)) as [_ [_ H3]].
  split; [exact H1|]. split; [exact H2|].
  apply H3. intros r [].
Defined.

(** X16.  On a working connection a run that gets to its final [Save]
    leaves in the article's row the address reached after redirects,
    the title (the submitted URL when the page has none), the summary
    text, the tags text exactly as the provider gave it, the status
    "unread" and the instant of the [Save]; the row keeps its creation
    instant, and nothing else of what it held before survives. *)
Theorem commit_overwrites_row
    (w : World) (a : Article) (db : DB) (resp : HTTPResponse)
    (doc : Document) (s t : string) (r0 : Row) :
  extracted w a = Some (resp, doc) ->
  GEMINI_API_KEY w <> "" -> NewClient w (GEMINI_API_KEY w) = true ->
  summary_answer w doc = GenResponse s -> tags_answer w doc = GenResponse t ->
  ID a <> "" -> healthy db -> persisted (ID a) (UserID a) db = Some r0 ->
  persisted (ID a) (UserID a) (store (ProcessNewArticle w a db))
  = Some {| row_id := ID a; row_user_id := UserID a;
            row_url := RequestURL resp; row_title := title_or_url doc a;
            row_summary := s; row_tags := t; row_status := "unread";
            row_created_at := row_created_at r0; row_updated_at := Now w |}.
Proof.
  intros H Hk Hc Hs Ht Hid Hh Hp.
  rewrite (run_commit _ _ _ _ _ _ _ H Hk Hc Hs Ht). cbn [store].
  match goal with
  | |- context [Save ?u ?n ?x ?d] =>
      pose proof (Save_update_persisted u n x d r0 Hid Hh Hp) as HP
  end.
  cbn [ID UserID set_result set_Title_URL Tags] in HP. rewrite HP.
  destruct (persisted_matches _ _ _ _ Hp) as [_ [Hi Hu]].
  destruct (Split_comma_facts t) as [-> _].
  unfold set_all. cbn. rewrite Hi, Hu. reflexivity.
Qed.

(** Bob's article, already read and tagged by him, is committed. *)
Lemma commit_overwrites_row_witness :
  persisted "id-7" "bob"
    (store (ProcessNewArticle
              (world_page 200 "" (GenResponse "S") (GenResponse "t1, t2"))
              {| ID := "id-7"; UserID := "bob"; URL := "http://y.test/b";
                 Title := ""; Summary := ""; Tags := [];
                 Status := "processing"; CreatedAt := 5; UpdatedAt := 5 |}
              db_two))
  = Some {| row_id := "id-7"; row_user_id := "bob";
            row_url := "http://y.test/b"; row_title := "http://y.test/b";
            row_summary := "S"; row_tags := "t1, t2";
            row_status := "unread"; row_created_at := 5;
            row_updated_at := 20 |}.
Proof.
  apply (commit_overwrites_row
           (world_page 200 "" (GenResponse "S") (GenResponse "t1, t2"))
           {| ID := "id-7"; UserID := "bob"; URL := "http://y.test/b";
              Title := ""; Summary := ""; Tags := [];
              Status := "processing"; CreatedAt := 5; UpdatedAt := 5 |}
           db_two
           {| StatusCode := 200; Body := Some "<html>";
              RequestURL := "http://y.test/b" |}
           {| title_Text := ""; body_Text := "B" |} "S" "t1, t2" row_bob);
    try reflexivity; discriminate.
Defined.

(** X17.  A run ends the process (through [log.Fatal]) exactly when the
    document was extracted and the API key is empty; it has then made no
    generation call and no store write, and the store is what it was. *)
Theorem missing_key_ends_process (w : World) (a : Article) (db : DB) :
  let r := ProcessNewArticle w a db in
  (exited r = true <-> extracted w a <> None /\ GEMINI_API_KEY w = "")
  /\ (exited r = true ->
      store r = db /\ enrichment_calls r = 0 /\ store_writes r = 0).
Proof.
  unfold ProcessNewArticle, extracted, enrichment_calls, store_writes.
  destruct (http_Get w (URL a)) as [fc|].
  - destruct (negb (Nat.eqb (StatusCode fc) services.StatusOK));
      [cbn; split; [split; [discriminate|intros [H _]; congruence]
                   |discriminate]|].
    destruct (Body fc) as [body|];
      [|cbn; split; [split; [discriminate|intros [H _]; congruence]
                    |discriminate]].
    destruct (NewDocumentFromReader w body) as [doc|];
      [|cbn; split; [split; [discriminate|intros [H _]; congruence]
                    |discriminate]].
    destruct (String.eqb_spec (GEMINI_API_KEY w) "") as [E|E].
    + cbn. split; [|intros _; repeat split].
      split; [intros _; split; [discriminate|exact E]|reflexivity].
    + assert (Hn : forall P : Prop,
                (false = true <-> Some (fc, doc) <> None
                                  /\ GEMINI_API_KEY w = "")
                /\ (false = true -> P)).
      { intros P. split; [|discriminate].
        split; [discriminate|intros [_ H]; contradiction]. }
      destruct (negb (NewClient w (GEMINI_API_KEY w))); [exact (Hn _)|].
      destruct (GenerateContent w 0 _ _); try exact (Hn _).
      destruct (GenerateContent w 1 _ _); try exact (Hn _).
      destruct (Save _ _ _ _) as [[a' db'] e]. exact (Hn _).
  - destruct (Save _ _ _ _) as [[a' db'] e]. cbn. split; [|discriminate].
    split; [discriminate|intros [H _]; congruence].
Qed.

Lemma missing_key_ends_process_witness :
  let w := {| http_Get := http_Get (world_page 200 "T" GenNil GenNil);
              NewDocumentFromReader :=
                NewDocumentFromReader (world_page 200 "T" GenNil GenNil);
              GEMINI_API_KEY := "";
              NewClient := fun _ => true;
              GenerateContent := fun _ _ _ => GenNil;
              GenerateUUID := "id-2";
              Now := 20 |} in
  let r := ProcessNewArticle w article_alice db_alice in
  exited r = true
  /\ store r = db_alice /\ enrichment_calls r = 0 /\ store_writes r = 0.
Proof.
  intros w r.
  destruct (missing_key_ends_process w article_alice db_alice) as [H1 H2].
  assert (He : exited r = true).
  { apply H1. split; [discriminate|reflexivity]. }
  split; [exact He|]. apply H2. exact He.
Defined.

(** X18.  A run writes to the store, once, exactly when the fetch
    returned an error or everything up to the final [Save] succeeded;
    in every other case the store is what it was and the article keeps
    its status, so that one submitted as "processing" stays so.  When
    everything succeeded the article's status is "unread". *)
Theorem run_writes_iff (w : World) (a : Article) (db : DB) :
  let r := ProcessNewArticle w a db in
  (store_writes r = 1 <-> http_Get w (URL a) = None \/ commits w a)
  /\ (store_writes r <> 1 ->
      store_writes r = 0 /\ store r = db /\ Status (article r) = Status a)
  /\ (commits w a -> Status (article r) = "unread").
Proof.
  intros r. split; [split|split].
  - subst r. unfold ProcessNewArticle, store_writes.
    destruct (http_Get w (URL a)) as [fc|] eqn:Eg;
      [|intros _; left; reflexivity].
    destruct (Nat.eqb (StatusCode fc) services.StatusOK) eqn:Ec;
      cbn [negb]; [|cbn; discriminate].
    destruct (Body fc) as [body|] eqn:Eb; [|cbn; discriminate].
    destruct (NewDocumentFromReader w body) as [doc|] eqn:Ed;
      [|cbn; discriminate].
    destruct (String.eqb_spec (GEMINI_API_KEY w) "") as [Ek|Ek];
      [cbn; discriminate|].
    destruct (NewClient w (GEMINI_API_KEY w)) eqn:En;
      cbn [negb]; [|cbn; discriminate].
    destruct (GenerateContent w 0 _ _) as [| |s] eqn:E0;
      try (cbn; discriminate).
    destruct (GenerateContent w 1 _ _) as [| |t] eqn:E1;
      try (cbn; discriminate).
    intros _. right. exists fc, doc, s, t.
    unfold extracted, summary_answer, tags_answer.
    rewrite Eg, Ec. cbn [negb]. rewrite Eb, Ed.
    repeat split; assumption.
  - subst r. intros [H|[resp [doc [s [t [H [Hk [Hc [Hs Ht]]]]]]]]].
    + rewrite (run_fetch_error _ _ _ H). reflexivity.
    + rewrite (run_commit _ _ _ _ _ _ _ H Hk Hc Hs Ht). reflexivity.
  - intros Hw. destruct (run_shape w a db) as [_ [Hle Hs]].
    fold r in Hle, Hs.
    assert (H0 : store_writes r = 0) by lia.
    split; [exact H0|]. split; [apply Hs, H0|].
    subst r. revert H0. unfold ProcessNewArticle, store_writes.
    destruct (http_Get w (URL a)) as [fc|].
    + destruct (negb (Nat.eqb (StatusCode fc) services.StatusOK));
        [reflexivity|].
      destruct (Body fc) as [body|]; [|reflexivity].
      destruct (NewDocumentFromReader w body) as [doc|]; [|reflexivity].
      destruct (String.eqb (GEMINI_API_KEY w) ""); [reflexivity|].
      destruct (negb (NewClient w (GEMINI_API_KEY w))); [reflexivity|].
      destruct (GenerateContent w 0 _ _); try reflexivity.
      destruct (GenerateContent w 1 _ _); try reflexivity.
      destruct (Save _ _ _ _) as [[a' db'] e]. cbn. discriminate.
    + destruct (Save _ _ _ _) as [[a' db'] e]. cbn. discriminate.
  - intros [resp [doc [s [t [H [Hk [Hc [Hs Ht]]]]]]]]. subst r.
    rewrite (run_commit _ _ _ _ _ _ _ H Hk Hc Hs Ht). cbn [article].
    match goal with
    | |- context [Save ?u ?n ?x ?d] =>
        pose proof (Save_receiver u n x d) as HS
    end.
    cbn zeta in HS. destruct HS as [_ [_ [_ [_ [_ [Hst _]]]]]].
    rewrite Hst. reflexivity.
Qed.

(** The page cannot be parsed: nothing is written and Alice's article
    stays in "processing". *)
Lemma run_writes_iff_witness :
  let w := {| http_Get := http_Get (world_page 200 "T" GenNil GenNil);
              NewDocumentFromReader := fun _ => None;
              GEMINI_API_KEY := "key";
              NewClient := fun _ => true;
              GenerateContent := fun _ _ _ => GenNil;
              GenerateUUID := "id-2";
              Now := 20 |} in
  let r := ProcessNewArticle w article_alice db_alice in
  store_writes r = 0 /\ store r = db_alice
  /\ Status (article r) = "processing".
Proof.
  intros w r.
  destruct (run_writes_iff w article_alice db_alice) as [_ [H _]].
  apply H. discriminate.
Defined.

End RunOutcome.

(* ================================================================== *)
(** ** Splitting on one byte *)

Section SplitByte.

Variable c : ascii.

Lemma Index_byte_cons (b : ascii) (s : string) :
  Index (String b s) (String c "") =
  if Ascii.eqb c b then Some 0 else option_map S (Index s (String c "")).
Proof.
  cbn [Index HasPrefix]. rewrite HasPrefix_empty, andb_true_r. reflexivity.
Qed.

Lemma genSplit_byte (s : string) :
  forall fuel, String.length s <= fuel ->
               genSplit fuel s (String c "") = split_byte c s.
Proof.
  induction s as [|b s IH]; intros fuel Hf.
  - destruct fuel; reflexivity.
  - destruct fuel as [|fuel]; [simpl in Hf; lia|].
    assert (Hs : String.length s <= fuel) by (simpl in Hf; lia).
    assert (Hs' : String.length s <= S fuel) by lia.
    pose proof (IH (S fuel) Hs') as IH1.
    cbn [genSplit split_byte]. rewrite Index_byte_cons.
    destruct (Ascii.eqb c b) eqn:Ec.
    + cbn [take drop Nat.add String.length]. f_equal. apply IH, Hs.
    + rewrite <- IH1. cbn [genSplit].
      destruct (Index s (String c "")) as [m|]; cbn [option_map].
      * cbn [take drop Nat.add String.length]. reflexivity.
      * reflexivity.
Qed.

Lemma Split_byte (s : string) : Split s (String c "") = split_byte c s.
Proof. unfold Split. apply genSplit_byte. lia. Qed.

Lemma Contains_byte_cons (b : ascii) (s : string) :
  Contains (String b s) (String c "")
  = Ascii.eqb c b || Contains s (String c "").
Proof.
  unfold Contains. rewrite Index_byte_cons.
  destruct (Ascii.eqb c b); [reflexivity|].
  destruct (Index s (String c "")); reflexivity.
Qed.

Lemma split_byte_not_nil (s : string) : split_byte c s <> [].
Proof.
  induction s as [|b s IH]; cbn [split_byte]; [discriminate|].
  destruct (Ascii.eqb c b); [discriminate|].
  destruct (split_byte c s); discriminate.
Qed.

Lemma split_byte_whole (t : string) :
  Contains t (String c "") = false -> split_byte c t = [t].
Proof.
  induction t as [|b t IH]; intros H; [reflexivity|].
  rewrite Contains_byte_cons in H. apply orb_false_iff in H.
  destruct H as [Hb Ht]. cbn [split_byte]. rewrite Hb, (IH Ht). reflexivity.
Qed.

Lemma split_byte_first (t rest : string) :
  Contains t (String c "") = false ->
  split_byte c (t ++ String c rest) = t :: split_byte c rest.
Proof.
  induction t as [|b t IH]; intros H.
  - cbn [append split_byte]. rewrite Ascii.eqb_refl. reflexivity.
  - rewrite Contains_byte_cons in H. apply orb_false_iff in H.
    destruct H as [Hb Ht].
    change (String b t ++ String c rest) with (String b (t ++ String c rest)).
    cbn [split_byte]. rewrite Hb, (IH Ht). reflexivity.
Qed.

Lemma split_byte_parts (s : string) :
  Forall (fun t => Contains t (String c "") = false) (split_byte c s).
Proof.
  induction s as [|b s IH]; cbn [split_byte].
  - constructor; [reflexivity|constructor].
  - destruct (Ascii.eqb c b) eqn:Ec.
    + constructor; [reflexivity|exact IH].
    + destruct (split_byte c s) as [|h t].
      * constructor; [|constructor].
        rewrite Contains_byte_cons, Ec. reflexivity.
      * inversion IH; subst. constructor; [|assumption].
        rewrite Contains_byte_cons, Ec. assumption.
Qed.

Lemma Join_split_byte (s : string) : Join (split_byte c s) (String c "") = s.
Proof.
  induction s as [|b s IH]; [reflexivity|].
  cbn [split_byte]. destruct (Ascii.eqb_spec c b) as [E|E].
  - subst b. pose proof (split_byte_not_nil s) as Hne.
    destruct (split_byte c s) as [|h t]; [congruence|].
    rewrite Join_cons_cons, IH. reflexivity.
  - pose proof (split_byte_not_nil s) as Hne.
    destruct (split_byte c s) as [|h t]; [congruence|].
    destruct t as [|h' t].
    + cbn [Join] in *. rewrite IH. reflexivity.
    + rewrite Join_cons_cons in *. rewrite <- IH. reflexivity.
Qed.

End SplitByte.

(* ================================================================== *)
(** ** Statements of the accounts *)

Section Accounts.

Lemma sound_goes_wrong (t : accounts.Tables) (st : Stage) :
  sound t -> accounts.goes_wrong t st = None.
Proof. unfold sound, accounts.goes_wrong. intros ->. reflexivity. Qed.

Lemma lookup_username_sound (n : string) (t : accounts.Tables) :
  sound t ->
  accounts.lookup_username n t
  = match find (fun r => String.eqb (accounts.Username r) n)
               (accounts.users t) with
    | None => accounts.NoRows
    | Some r => accounts.Scanned r
    end.
Proof.
  intros Hs. unfold accounts.lookup_username.
  rewrite !(sound_goes_wrong t _ Hs). reflexivity.
Qed.

Lemma username_taken_find (n : string) (us : list accounts.User) :
  accounts.username_taken n us = false ->
  find (fun r => String.eqb (accounts.Username r) n) us = None.
Proof.
  induction us as [|u us IH]; intros H; [reflexivity|].
  cbn [accounts.username_taken existsb] in H. apply orb_false_iff in H.
  destruct H as [Hu Hus]. cbn [find]. rewrite Hu. apply IH, Hus.
Qed.

Lemma username_taken_found (n : string) (us : list accounts.User) :
  accounts.username_taken n us = true ->
  exists u, find (fun r => String.eqb (accounts.Username r) n) us = Some u.
Proof.
  induction us as [|u us IH]; intros H; [discriminate|].
  cbn [accounts.username_taken existsb] in H. cbn [find].
  destruct (String.eqb (accounts.Username u) n); [exists u; reflexivity|].
  apply IH, H.
Qed.

Lemma find_username_last (n : string) (us : list accounts.User)
    (u : accounts.User) :
  accounts.username_taken n us = false -> accounts.Username u = n ->
  find (fun r => String.eqb (accounts.Username r) n) (us ++ [u]) = Some u.
Proof.
  intros H Hu. induction us as [|x us IH].
  - cbn [app find]. rewrite Hu, String.eqb_refl. reflexivity.
  - cbn [accounts.username_taken existsb] in H. apply orb_false_iff in H.
    destruct H as [Hx Hus]. cbn [app find]. rewrite Hx. apply IH, Hus.
Qed.

Lemma taken_false_not_in {A : Type} (f : A -> string) (n : string)
    (l : list A) :
  existsb (fun r => String.eqb (f r) n) l = false -> ~ In n (map f l).
Proof.
  induction l as [|x l IH]; intros H Hin; [exact Hin|].
  cbn [existsb] in H. apply orb_false_iff in H. destruct H as [Hx Hl].
  destruct Hin as [E|Hin].
  - apply String.eqb_neq in Hx. exact (Hx E).
  - exact (IH Hl Hin).
Qed.

Lemma NoDup_snoc (l : list string) (n : string) :
  NoDup l -> ~ In n l -> NoDup (l ++ [n]).
Proof.
  intros Hnd Hn. induction l as [|x l IH].
  - constructor; [intros []|constructor].
  - inversion Hnd as [|? ? Hx Hl]; subst. cbn [app]. constructor.
    + rewrite in_app_iff. intros [H|[E|[]]]; [exact (Hx H)|].
      apply Hn. left. symmetry. exact E.
    + apply IH; [exact Hl|]. intros H. apply Hn. right. exact H.
Qed.

(** X19.  [CreateUser] keeps user names and ids unique, whatever it is
    given; when it returns an error the tables are what they were; and
    on a working connection a user name that is taken is refused with
    the error "username '...' already exists". *)
Theorem CreateUser_keeps_unique
    (uuid : string) (now : Time) (user : accounts.User)
    (t : accounts.Tables) :
  NoDup (usernames t) -> NoDup (user_ids t) ->
  let out := accounts.CreateUser uuid now user t in
  NoDup (usernames (snd (fst out)))
  /\ NoDup (user_ids (snd (fst out)))
  /\ (snd out <> None -> snd (fst out) = t)
  /\ (sound t ->
      accounts.username_taken (accounts.Username user) (accounts.users t)
        = true ->
      snd out = Some ("username '" ++ accounts.Username user
                        ++ "' already exists")).
Proof.
  intros Hn Hi out. subst out. unfold accounts.CreateUser.
  set (u1 := if String.eqb (accounts.ID user) "" then _ else user).
  set (u2 := if Nat.eqb (accounts.CreatedAt u1) 0 then _ else u1).
  assert (Hname : accounts.Username u2 = accounts.Username user).
  { unfold u2, u1. destruct (Nat.eqb _ 0);
      destruct (String.eqb (accounts.ID user) ""); reflexivity. }
  destruct (accounts.goes_wrong t AtPrepare) eqn:Ep.
  - cbn [fst snd]. repeat split; try assumption.
    intros Hs. rewrite (sound_goes_wrong t _ Hs) in Ep. discriminate.
  - unfold accounts.insert_user.
    destruct (accounts.goes_wrong t AtExec) eqn:Ee.
    + destruct (Contains _ _); cbn [fst snd]; repeat split; try assumption;
        intros Hs; rewrite (sound_goes_wrong t _ Hs) in Ee; discriminate.
    + destruct (accounts.user_id_taken (accounts.ID u2) (accounts.users t))
        eqn:Eid.
      * cbn [fst snd]. rewrite Hname. repeat split; assumption.
      * destruct (accounts.username_taken (accounts.Username u2)
                                          (accounts.users t)) eqn:Eun.
        -- cbn [fst snd]. rewrite Hname. repeat split; assumption.
        -- cbn [fst snd]. unfold usernames, user_ids.
           cbn [accounts.users]. rewrite !map_app. cbn [map].
           split; [apply NoDup_snoc;
                   [exact Hn|apply taken_false_not_in, Eun]|].
           split; [apply NoDup_snoc;
                   [exact Hi|apply taken_false_not_in, Eid]|].
           split; [intros H; congruence|].
           intros _ Ht. rewrite Hname in Eun. congruence.
Qed.

(** X20.  On a working connection [AuthenticateUser] returns the same
    error, "invalid username or password", whether no user has the name
    or the password does not check against the stored hash, and
    [LoginUser] answers both with the same 401. *)
Theorem login_failure_is_uniform
    (env : auth.Env) (n p : string) (now issued : Time)
    (t : accounts.Tables) :
  sound t ->
  (forall u,
     find (fun r => String.eqb (accounts.Username r) n) (accounts.users t)
       = Some u ->
     accounts.CompareHashAndPassword (auth.bcrypt env)
                                     (accounts.PasswordHash u) p = false) ->
  accounts.AuthenticateUser (auth.bcrypt env) n p t
    = (None, Some "invalid username or password")
  /\ (n <> "" -> p <> "" -> auth.MatchString env n = true ->
      auth.LoginUser env (Some (n, p)) now issued t
      = auth.http_Error "Invalid username or password"
                        auth.StatusUnauthorized).
Proof.
  intros Hs Hbad.
  assert (HA : accounts.AuthenticateUser (auth.bcrypt env) n p t
               = (None, Some "invalid username or password")).
  { unfold accounts.AuthenticateUser. rewrite (lookup_username_sound n t Hs).
    destruct (find _ (accounts.users t)) as [u|] eqn:Ef; [|reflexivity].
    unfold accounts.CheckPasswordHash. rewrite (Hbad u eq_refl).
    reflexivity. }
  split; [exact HA|]. intros Hn Hp Hm. unfold auth.LoginUser.
  apply String.eqb_neq in Hn. apply String.eqb_neq in Hp.
  rewrite Hn, Hp, Hm, HA. reflexivity.
Qed.

(** X21.  On a working connection, registering a user name that is
    free, with an id that is free and a password that bcrypt hashes, is
    answered 201 and adds the user with that hash; from then on
    [AuthenticateUser] returns this user exactly for the passwords that
    check against the hash, and registering the same name again is
    answered 409 and changes nothing. *)
Theorem register_then_login
    (env : auth.Env) (n p h uuid : string) (now : Time)
    (t : accounts.Tables) :
  sound t -> n <> "" -> p <> "" -> auth.MatchString env n = true ->
  accounts.username_taken n (accounts.users t) = false ->
  accounts.user_id_taken uuid (accounts.users t) = false ->
  accounts.GenerateFromPassword (auth.bcrypt env) p = accounts.Hashed h ->
  let user := {| accounts.ID := uuid; accounts.Username := n;
                 accounts.PasswordHash := h; accounts.CreatedAt := now |} in
  let t' := {| accounts.users := accounts.users t ++ [user];
               accounts.revoked_tokens := accounts.revoked_tokens t;
               accounts.trouble := accounts.trouble t |} in
  auth.RegisterUser env (Some (n, p)) uuid now t
    = (auth.mkResponse auth.StatusCreated (auth.UserJSON user), t')
  /\ (forall p',
        accounts.AuthenticateUser (auth.bcrypt env) n p' t'
        = if accounts.CompareHashAndPassword (auth.bcrypt env) h p'
          then (Some user, None)
          else (None, Some "invalid username or password"))
  /\ (forall p2 uuid2 now2,
        p2 <> "" ->
        auth.RegisterUser env (Some (n, p2)) uuid2 now2 t'
        = (auth.http_Error ("Username '" ++ n ++ "' already exists")
                           auth.StatusConflict, t')).
Proof.
  intros Hs Hn Hp Hm Hfree Hid Hh user t'.
  assert (Hs' : sound t') by exact Hs.
  assert (Hfind : find (fun r => String.eqb (accounts.Username r) n)
                       (accounts.users t') = Some user)
    by (apply find_username_last; [exact Hfree|reflexivity]).
  apply String.eqb_neq in Hn.
  split; [|split].
  - unfold auth.RegisterUser. apply String.eqb_neq in Hp.
    rewrite Hn, Hp, Hm. cbn [orb negb].
    unfold accounts.GetUserByUsername.
    rewrite (lookup_username_sound n t Hs), (username_taken_find _ _ Hfree).
    unfold accounts.HashPassword. rewrite Hh.
    unfold accounts.CreateUser, accounts.insert_user.
    cbn [accounts.ID accounts.CreatedAt accounts.Username
         accounts.PasswordHash String.eqb Nat.eqb].
    rewrite !(sound_goes_wrong t _ Hs), Hid, Hfree. reflexivity.
  - intros p'. unfold accounts.AuthenticateUser.
    rewrite (lookup_username_sound n t' Hs'), Hfind.
    unfold accounts.CheckPasswordHash. cbn [accounts.PasswordHash user].
    destruct (accounts.CompareHashAndPassword _ h p'); reflexivity.
  - intros p2 uuid2 now2 Hp2. unfold auth.RegisterUser.
    apply String.eqb_neq in Hp2. rewrite Hn, Hp2, Hm. cbn [orb negb].
    unfold accounts.GetUserByUsername.
    rewrite (lookup_username_sound n t' Hs'), Hfind. reflexivity.
Qed.

Lemma register_then_login_witness :
  let user := {| accounts.ID := "u-1"; accounts.Username := "a@x.test";
                 accounts.PasswordHash := "$2a$secret";
                 accounts.CreatedAt := 10 |} in
  let t' := {| accounts.users := [user]; accounts.revoked_tokens := [];
               accounts.trouble := None |} in
  auth.RegisterUser toy_env (Some ("a@x.test", "secret")) "u-1" 10
                    tables_empty
    = (auth.mkResponse auth.StatusCreated (auth.UserJSON user), t')
  /\ accounts.AuthenticateUser toy_bcrypt "a@x.test" "secret" t'
     = (Some user, None)
  /\ accounts.AuthenticateUser toy_bcrypt "a@x.test" "guess" t'
     = (None, Some "invalid username or password")
  /\ auth.RegisterUser toy_env (Some ("a@x.test", "other")) "u-2" 11 t'
     = (auth.http_Error "Username 'a@x.test' already exists"
                        auth.StatusConflict, t').
Proof.
  destruct (register_then_login toy_env "a@x.test" "secret" "$2a$secret"
              "u-1" 10 tables_empty eq_refl ltac:(discriminate)
              ltac:(discriminate) eq_refl eq_refl eq_refl eq_refl)
    as [H1 [H2 H3]].
  split; [exact H1|]. split; [exact (H2 "secret")|].
  split; [exact (H2 "guess")|].
  apply (H3 "other" "u-2" 11). discriminate.
Defined.

Lemma CreateUser_keeps_unique_witness :
  let t := {| accounts.users :=
                [{| accounts.ID := "u-1"; accounts.Username := "a@x.test";
                    accounts.PasswordHash := "$2a$secret";
                    accounts.CreatedAt := 10 |}];
              accounts.revoked_tokens := []; accounts.trouble := None |} in
  let out := accounts.CreateUser "u-2" 11
               {| accounts.ID := ""; accounts.Username := "a@x.test";
                  accounts.PasswordHash := "$2a$other";
                  accounts.CreatedAt := 0 |} t in
  NoDup (usernames (snd (fst out)))
  /\ NoDup (user_ids (snd (fst out)))
  /\ snd (fst out) = t
  /\ snd out = Some "username 'a@x.test' already exists".
Proof.
  intros t out.
  destruct (CreateUser_keeps_unique "u-2" 11
              {| accounts.ID := ""; accounts.Username := "a@x.test";
                 accounts.PasswordHash := "$2a$other";
                 accounts.CreatedAt := 0 |} t) as [H1 [H2 [H3 H4]]].
  - constructor; [intros []|constructor].
  - constructor; [intros []|constructor].
  - split; [exact H1|]. split; [exact H2|].
    split; [apply H3; discriminate|]. apply H4; reflexivity.
Defined.

(** An unknown name and a wrong password. *)
Lemma login_failure_is_uniform_witness :
  let t := {| accounts.users :=
                [{| accounts.ID := "u-1"; accounts.Username := "a@x.test";
                    accounts.PasswordHash := "$2a$secret";
                    accounts.CreatedAt := 10 |}];
              accounts.revoked_tokens := []; accounts.trouble := None |} in
  auth.LoginUser toy_env (Some ("a@x.test", "guess")) 20 20 t
    = auth.http_Error "Invalid username or password" auth.StatusUnauthorized
  /\ auth.LoginUser toy_env (Some ("b@x.test", "guess")) 20 20 t
     = auth.http_Error "Invalid username or password" auth.StatusUnauthorized.
Proof.
  intros t. split.
  - apply (login_failure_is_uniform toy_env "a@x.test" "guess" 20 20 t);
      try reflexivity; try discriminate.
    intros u Hu. inversion Hu; subst u. reflexivity.
  - apply (login_failure_is_uniform toy_env "b@x.test" "guess" 20 20 t);
      try reflexivity; try discriminate.
Defined.

End Accounts.

(* ================================================================== *)
(** ** Statements of tokens, logout and the middleware *)

Section Tokens.

Lemma token_revoked_app (tok : string) (rs rs' : list accounts.RevokedToken) :
  accounts.token_revoked tok (rs ++ rs')
  = accounts.token_revoked tok rs || accounts.token_revoked tok rs'.
Proof. unfold accounts.token_revoked. apply existsb_app. Qed.

Lemma RevokeToken_fresh (tok : string) (e : Time) (t : accounts.Tables) :
  sound t -> accounts.token_revoked tok (accounts.revoked_tokens t) = false ->
  accounts.RevokeToken tok e t
  = ({| accounts.users := accounts.users t;
        accounts.revoked_tokens :=
          accounts.revoked_tokens t
            ++ [{| accounts.Token := tok; accounts.ExpiresAt := e |}];
        accounts.trouble := accounts.trouble t |}, None).
Proof.
  intros Hs Hf. unfold accounts.RevokeToken.
  rewrite !(sound_goes_wrong t _ Hs), Hf. reflexivity.
Qed.

Lemma RevokeToken_again (tok : string) (e : Time) (t : accounts.Tables) :
  sound t -> accounts.token_revoked tok (accounts.revoked_tokens t) = true ->
  accounts.RevokeToken tok e t
  = (t, Some "UNIQUE constraint failed: revoked_tokens.token").
Proof.
  intros Hs Hf. unfold accounts.RevokeToken.
  rewrite !(sound_goes_wrong t _ Hs), Hf. reflexivity.
Qed.

Lemma IsTokenRevoked_after (tok : string) (e : Time) (t : accounts.Tables) :
  sound t ->
  accounts.IsTokenRevoked tok (fst (accounts.RevokeToken tok e t))
  = (true, None).
Proof.
  intros Hs.
  destruct (accounts.token_revoked tok (accounts.revoked_tokens t)) eqn:E.
  - rewrite (RevokeToken_again _ _ _ Hs E). cbn [fst].
    unfold accounts.IsTokenRevoked. rewrite !(sound_goes_wrong t _ Hs), E.
    reflexivity.
  - rewrite (RevokeToken_fresh _ _ _ Hs E). cbn [fst].
    unfold accounts.IsTokenRevoked, accounts.goes_wrong.
    cbn [accounts.trouble accounts.revoked_tokens].
    unfold sound in Hs. rewrite Hs, token_revoked_app.
    cbn [accounts.token_revoked existsb accounts.Token].
    rewrite String.eqb_refl, orb_true_r. reflexivity.
Qed.

(** X22.  [RevokeToken] never takes a token out of the table, whatever
    it is given.  On a working connection the token it was called with
    is reported revoked by [IsTokenRevoked] afterwards, and revoking a
    token that is already in the table returns an error and changes
    nothing. *)
Theorem revoked_stays_revoked (tok : string) (e : Time) (t : accounts.Tables) :
  (forall tok',
     accounts.token_revoked tok' (accounts.revoked_tokens t) = true ->
     accounts.token_revoked tok'
       (accounts.revoked_tokens (fst (accounts.RevokeToken tok e t))) = true)
  /\ (sound t ->
      accounts.IsTokenRevoked tok (fst (accounts.RevokeToken tok e t))
      = (true, None))
  /\ (sound t ->
      accounts.token_revoked tok (accounts.revoked_tokens t) = true ->
      accounts.RevokeToken tok e t
      = (t, Some "UNIQUE constraint failed: revoked_tokens.token")).
Proof.
  split; [|split].
  - intros tok' H. unfold accounts.RevokeToken.
    destruct (accounts.goes_wrong t AtPrepare); [exact H|].
    destruct (accounts.goes_wrong t AtExec); [exact H|].
    destruct (accounts.token_revoked tok (accounts.revoked_tokens t));
      [exact H|].
    cbn [fst accounts.revoked_tokens]. rewrite token_revoked_app, H.
    reflexivity.
  - intros Hs. apply IsTokenRevoked_after, Hs.
  - intros Hs H. apply RevokeToken_again; assumption.
Qed.

Lemma revoked_stays_revoked_witness :
  let t1 := fst (accounts.RevokeToken "jwt.u-1" 900 tables_empty) in
  accounts.IsTokenRevoked "jwt.u-1" t1 = (true, None)
  /\ accounts.IsTokenRevoked "jwt.u-1"
       (fst (accounts.RevokeToken "jwt.u-2" 900 t1)) = (true, None)
  /\ accounts.RevokeToken "jwt.u-1" 950 t1
     = (t1, Some "UNIQUE constraint failed: revoked_tokens.token").
Proof.
  intros t1.
  destruct (revoked_stays_revoked "jwt.u-1" 900 tables_empty) as [_ [H2 _]].
  destruct (revoked_stays_revoked "jwt.u-1" 950 t1) as [_ [_ H3]].
  split; [apply H2; reflexivity|]. split; [reflexivity|].
  apply H3; reflexivity.
Defined.

Lemma HasPrefix_app (p s : string) : HasPrefix (p ++ s) p = true.
Proof.
  induction p as [|a p IH]; [apply HasPrefix_empty|].
  cbn [append HasPrefix]. rewrite Ascii.eqb_refl, IH. reflexivity.
Qed.

Lemma drop_app (p s : string) : drop (String.length p) (p ++ s) = s.
Proof. induction p as [|a p IH]; [reflexivity|exact IH]. Qed.

Lemma TrimPrefix_app (p s : string) : TrimPrefix (p ++ s) p = s.
Proof. unfold TrimPrefix. rewrite HasPrefix_app. apply drop_app. Qed.

(** X23.  On a working connection, logging out with a header
    "Bearer <token>" whose token carries an expiry and is not yet
    revoked is answered 200 and puts the token in the table; logging out
    again with the same header is answered 500 "Failed to revoke token"
    and changes nothing. *)
Theorem logout_twice
    (env : auth.Env) (tok : string) (e : Time) (t : accounts.Tables) :
  sound t -> auth.ParseUnverified env tok = auth.Expiry e ->
  accounts.token_revoked tok (accounts.revoked_tokens t) = false ->
  let t' := fst (accounts.RevokeToken tok e t) in
  auth.LogoutUser env ("Bearer " ++ tok) t
    = (auth.mkResponse auth.StatusOK (auth.Text "Logged out successfully"),
       t')
  /\ accounts.IsTokenRevoked tok t' = (true, None)
  /\ auth.LogoutUser env ("Bearer " ++ tok) t'
     = (auth.http_Error "Failed to revoke token"
                        auth.StatusInternalServerError, t').
Proof.
  intros Hs Hp Hf t'.
  pose proof (IsTokenRevoked_after tok e t Hs) as Hrev. fold t' in Hrev.
  assert (Hs' : sound t').
  { unfold t'. rewrite (RevokeToken_fresh _ _ _ Hs Hf). exact Hs. }
  assert (Hin : accounts.token_revoked tok (accounts.revoked_tokens t')
                = true).
  { unfold accounts.IsTokenRevoked in Hrev.
    rewrite !(sound_goes_wrong t' _ Hs') in Hrev. congruence. }
  split; [|split; [exact Hrev|]].
  - unfold auth.LogoutUser.
    change (String.eqb ("Bearer " ++ tok) "") with false. cbv iota.
    rewrite HasPrefix_app, TrimPrefix_app, Hp. cbn [negb].
    unfold t'. rewrite (RevokeToken_fresh _ _ _ Hs Hf). reflexivity.
  - unfold auth.LogoutUser.
    change (String.eqb ("Bearer " ++ tok) "") with false. cbv iota.
    rewrite HasPrefix_app, TrimPrefix_app, Hp. cbn [negb].
    rewrite (RevokeToken_again _ _ _ Hs' Hin). reflexivity.
Qed.

Lemma logout_twice_witness :
  let t' := fst (accounts.RevokeToken "jwt.u-1" 900 tables_empty) in
  auth.LogoutUser toy_env "Bearer jwt.u-1" tables_empty
    = (auth.mkResponse auth.StatusOK (auth.Text "Logged out successfully"),
       t')
  /\ accounts.IsTokenRevoked "jwt.u-1" t' = (true, None)
  /\ auth.LogoutUser toy_env "Bearer jwt.u-1" t'
     = (auth.http_Error "Failed to revoke token"
                        auth.StatusInternalServerError, t').
Proof.
  apply (logout_twice toy_env "jwt.u-1" 900 tables_empty); reflexivity.
Defined.

(** X24.  The middleware passes a request on, with a user id in its
    context, exactly when the header is "Bearer ", then a token without
    a space in it that the JWT library accepts, the id being the one in
    the token's claims; a second space anywhere, another spelling of
    "Bearer" or a missing token make it answer 401 itself. *)
Theorem middleware_passes_iff (env : auth.Env) (h uid : string) :
  auth.AuthMiddleware env h = inr uid
  <-> exists tok, h = "Bearer " ++ tok /\ no_space tok
                  /\ auth.ParseWithClaims env tok = Some uid.
Proof.
  unfold auth.AuthMiddleware. split.
  - destruct (String.eqb h ""); [discriminate|].
    pose proof (Join_split_byte " " h) as HJ.
    pose proof (split_byte_parts " " h) as HP.
    change (Split h " ") with (Split h (String " " "")).
    rewrite Split_byte.
    destruct (split_byte " " h) as [|p0 [|tok [|x l]]]; try discriminate.
    destruct (String.eqb_spec p0 "Bearer") as [E|E]; [|discriminate].
    cbn [negb].
    destruct (auth.ParseWithClaims env tok) as [u|] eqn:Ep; [|discriminate].
    intros H. inversion H; subst u. exists tok.
    split; [rewrite <- HJ, E; reflexivity|].
    split; [|exact Ep].
    inversion HP as [|? ? _ HP']; subst. inversion HP'; subst. assumption.
  - intros [tok [-> [Hn Hp]]].
    change (String.eqb ("Bearer " ++ tok) "") with false. cbv iota.
    change (Split ("Bearer " ++ tok) " ")
      with (Split ("Bearer " ++ tok) (String " " "")).
    rewrite Split_byte.
    change ("Bearer " ++ tok) with ("Bearer" ++ String " " tok).
    rewrite split_byte_first by reflexivity.
    rewrite (split_byte_whole " " tok Hn).
    cbn [String.eqb Ascii.eqb Bool.eqb negb]. rewrite Hp. reflexivity.
Qed.

(** One space passes, two do not, and "bearer" is not "Bearer". *)
Lemma middleware_passes_iff_witness :
  auth.AuthMiddleware toy_env "Bearer jwt.u-1" = inr "u-1"
  /\ auth.AuthMiddleware toy_env "Bearer  jwt.u-1"
     = inl (auth.http_Error "Invalid Authorization header format"
                            auth.StatusUnauthorized)
  /\ auth.AuthMiddleware toy_env "bearer jwt.u-1"
     = inl (auth.http_Error "Invalid Authorization header format"
                            auth.StatusUnauthorized).
Proof.
  split; [|split; reflexivity].
  apply (middleware_passes_iff toy_env "Bearer jwt.u-1" "u-1").
  exists "jwt.u-1". repeat split.
Defined.

End Tokens.
